(** * PyPI catalogue of prebuilt JupyterLab extensions ([src/pypi.py])

    A shallow embedding of [PyPILabExtensions] and of
    [_fetch_package_metadata], followed by the properties of the catalogue
    builder.

    Conventions of the embedding.
    - Python values that flow through the module (the JSON payloads, [None],
      the literals [0] and [{}]) are the type [pyval].  JSON arrays and
      non-integral numbers are not read anywhere by the module and are left
      out of the value type.
    - A [str] is a [string] of bytes (UTF-8).  The characters the module
      inspects are all ASCII, and a byte below 128 never occurs inside a
      multi-byte sequence, so byte-wise [replace], [startswith] and regex
      matching agree with the code-point-wise ones.  [\d] is [0-9].
    - The float arithmetic of the back-off delay is carried out in exact
      rationals ([Q]).
    - The network is an environment [Env] that answers each request from
      the history of the run so far; a run threads the [trace] of its
      effects (RPC calls, sleeps, HTTP fetches) and ends in a value or in a
      raised exception.  Logging has no effect on the control flow and is
      not traced. *)

From Stdlib Require Import String Ascii List ZArith QArith Bool Arith Lia.
From Stdlib Require Import Permutation Sorted OrderedTypeEx.
Import ListNotations.
Close Scope Q_scope.
Open Scope string_scope.
Open Scope list_scope.

Set Implicit Arguments.
Set Warnings "-register-all".

(** ** Python values *)

Inductive pyval : Type :=
| PNone
| PBool (b : bool)
| PInt (n : Z)
| PStr (s : string)
| PDict (d : list (string * pyval)).

Definition pydict := list (string * pyval).

(** Truth value of an object, as tested by [or]. *)
Definition truthy (v : pyval) : bool :=
  match v with
  | PNone => false
  | PBool b => b
  | PInt n => negb (n =? 0)%Z
  | PStr s => negb (s =? "")
  | PDict d => match d with [] => false | _ :: _ => true end
  end.

(** [a or b] where [b] is a value already at hand. *)
Definition py_or (a b : pyval) : pyval := if truthy a then a else b.

(** ** Exceptions and results *)

Inductive exn : Type :=
| Fault (faultCode : Z) (faultString : string)  (* xmlrpc.client.Fault *)
| UnboundLocalError (var : string)
| AttributeError
| TypeError
| IndexError
| ValueError
| JSONDecodeError
| OtherError (what : string).  (* anything else a collaborator raises *)

Inductive result (A : Type) : Type :=
| Ok (a : A)
| Raise (e : exn).
Arguments Ok {A} a.
Arguments Raise {A} e.

(** [a or b] where evaluating [b] may raise: [b] is only looked at when [a]
    is falsy. *)
Definition or_else (a : pyval) (b : result pyval) : result pyval :=
  if truthy a then Ok a else b.

(** ** Dictionaries *)

Fixpoint lookup (A : Type) (d : list (string * A)) (k : string) : option A :=
  match d with
  | [] => None
  | (k', v) :: d' => if k' =? k then Some v else lookup d' k
  end.

(** [d.get(k, default)] on a [dict]. *)
Definition dict_get_default (d : pydict) (k : string) (default : pyval) : pyval :=
  match lookup d k with Some v => v | None => default end.

(** [d.get(k)] on a [dict]. *)
Definition dict_get (d : pydict) (k : string) : pyval := dict_get_default d k PNone.

(** [v.get(k, default)] on an arbitrary object: only a [dict] has the
    method. *)
Definition py_get_default (v : pyval) (k : string) (default : pyval) : result pyval :=
  match v with
  | PDict d => Ok (dict_get_default d k default)
  | _ => Raise AttributeError
  end.

Definition py_get (v : pyval) (k : string) : result pyval := py_get_default v k PNone.

(** [d[k] = v]: an existing key keeps its position, a new key goes last
    (dictionaries iterate in insertion order). *)
Fixpoint dict_set (A : Type) (d : list (string * A)) (k : string) (v : A)
  : list (string * A) :=
  match d with
  | [] => [(k, v)]
  | (k', v') :: d' => if k' =? k then (k', v) :: d' else (k', v') :: dict_set d' k v
  end.

(** [d.values()] *)
Definition values (A : Type) (d : list (string * A)) : list A := map snd d.

(** ** Strings *)

(** [s.replace(old, new)] for a one-character [old]. *)
Fixpoint replace (old : ascii) (new : string) (s : string) : string :=
  match s with
  | EmptyString => EmptyString
  | String c s' =>
      if Ascii.eqb c old then new ++ replace old new s'
      else String c (replace old new s')
  end.

(** [s.startswith(p)] *)
Definition startswith (s p : string) : bool := prefix p s.

Fixpoint strip_prefix (p s : string) : option string :=
  match p with
  | EmptyString => Some s
  | String a p' =>
      match s with
      | String b s' => if Ascii.eqb a b then strip_prefix p' s' else None
      | EmptyString => None
      end
  end.

Definition is_digit (c : ascii) : bool :=
  (48 <=? nat_of_ascii c)%nat && (nat_of_ascii c <=? 57)%nat.

(** The longest run of digits at the head of [s], and what follows it. *)
Fixpoint span_digits (s : string) : string * string :=
  match s with
  | String c s' =>
      if is_digit c then let (ds, r) := span_digits s' in (String c ds, r)
      else (EmptyString, s)
  | EmptyString => (EmptyString, EmptyString)
  end.

Definition newline : ascii := ascii_of_nat 10.

(** The pattern [Limit may reset in (\d+) seconds.] anchored at the head of
    [s]; the result is group 1.  The digits are followed by a space in the
    pattern, so the greedy [\d+] can only succeed on the whole run of
    digits; the final unescaped [.] is any character but a newline. *)
Definition match_reset_here (s : string) : option string :=
  match strip_prefix "Limit may reset in " s with
  | None => None
  | Some r =>
      let (ds, r') := span_digits r in
      match ds with
      | EmptyString => None
      | String _ _ =>
          match strip_prefix " seconds" r' with
          | Some (String c _) => if Ascii.eqb c newline then None else Some ds
          | _ => None
          end
      end
  end.

(** [re.search(r"Limit may reset in (\d+) seconds.", s)], returning
    [match.group(1)] of the leftmost match. *)
Fixpoint re_search_reset (s : string) : option string :=
  match match_reset_here s with
  | Some ds => Some ds
  | None =>
      match s with
      | EmptyString => None
      | String _ s' => re_search_reset s'
      end
  end.

(** [int(ds)] for a string of decimal digits. *)
Definition int_of_digits (ds : string) : Z :=
  fold_left (fun acc c => (10 * acc + (Z.of_nat (nat_of_ascii c) - 48))%Z)
            (list_ascii_of_string ds) 0%Z.

(** ** Effects *)

Inductive event : Type :=
| EvBrowse (classifiers : list string)  (* self._rpc_client.browse(...) *)
| EvSleep (seconds : Q)                 (* time.sleep(...) *)
| EvFetch (url : string).               (* HTTPClient().fetch(url, ...) *)

Definition trace := list event.

(** An HTTP response, seen through [json.loads(response.body)]: the parsed
    value, or [None] when the body is not JSON. *)
Record HTTPResponse : Type := { json_body : option pyval }.

(** The remote services.  Each answer may depend on everything the run has
    done before the request. *)
Record Env : Type := {
  rpc_browse : trace -> list string -> result (list (string * string));
  http_fetch : trace -> string -> result HTTPResponse
}.

(** A computation: from the trace so far to the extended trace and the
    outcome. *)
Definition M (A : Type) : Type := trace -> trace * result A.

Definition ret (A : Type) (a : A) : M A := fun t => (t, Ok a).

Definition raise (A : Type) (e : exn) : M A := fun t => (t, Raise e).
Arguments raise {A} e.

Definition bind (A B : Type) (m : M A) (k : A -> M B) : M B :=
  fun t =>
    match m t with
    | (t', Ok a) => k a t'
    | (t', Raise e) => (t', Raise e)
    end.

(** A pure step that may raise. *)
Definition lift (A : Type) (r : result A) : M A := fun t => (t, r).

(** [try: m  except <any exception> as e: h e] *)
Definition try_except (A : Type) (m : M A) (h : exn -> M A) : M A :=
  fun t =>
    match m t with
    | (t', Ok a) => (t', Ok a)
    | (t', Raise e) => h e t'
    end.

Declare Scope py_scope.
Delimit Scope py_scope with py.
Notation "x <- m ;; k" := (bind m (fun x => k))
  (at level 61, m at next level, right associativity) : py_scope.
Notation "' pat <- m ;; k" := (bind m (fun x => match x with pat => k end))
  (at level 61, pat pattern, m at next level, right associativity) : py_scope.
Notation "m ;;; k" := (bind m (fun _ => k))
  (at level 61, right associativity) : py_scope.
Open Scope py_scope.

(** [json.loads(response.body)] *)
Definition json_loads (r : HTTPResponse) : result pyval :=
  match json_body r with
  | Some v => Ok v
  | None => Raise JSONDecodeError
  end.

(** The same sequencing for pure steps that may raise. *)
Definition rbind (A B : Type) (r : result A) (k : A -> result B) : result B :=
  match r with
  | Ok a => k a
  | Raise e => Raise e
  end.

Declare Scope res_scope.
Delimit Scope res_scope with res.
Notation "x <- m ;; k" := (rbind m (fun x => k))
  (at level 61, m at next level, right associativity) : res_scope.

(** ** [sorted(..., key=...)]

    Python's sort is stable and compares keys with [<] only.  [py_lt] is
    [<] on the values of [pyval]: integers and booleans compare as numbers,
    strings compare lexicographically (the byte order of UTF-8 is the order
    of the code points), and every other pair raises [TypeError].  Two keys
    thus compare without raising exactly when both are numbers or both are
    strings.  A comparison sort of two or more items compares each item with
    some other item and links all of them through its comparisons, so it
    raises exactly when the keys are neither all numbers nor all strings,
    and otherwise returns the one stable sorted list: the outcome does not
    depend on the algorithm, and the model is a stable insertion sort. *)

Definition as_int (v : pyval) : option Z :=
  match v with
  | PInt n => Some n
  | PBool b => Some (if b then 1 else 0)%Z
  | _ => None
  end.

Definition py_lt (a b : pyval) : result bool :=
  match as_int a, as_int b with
  | Some x, Some y => Ok (x <? y)%Z
  | _, _ =>
      match a, b with
      | PStr s, PStr u => Ok (s <? u)%string
      | _, _ => Raise TypeError
      end
  end.

Section Sorting.
Variable A : Type.
Variable key : A -> pyval.

(** [x] is put in front of the first element that is not smaller than
    it. *)
Fixpoint insert_sorted (x : A) (l : list A) : result (list A) :=
  match l with
  | [] => Ok [x]
  | y :: l' =>
      (b <- py_lt (key y) (key x) ;;
       if b : bool then (r <- insert_sorted x l' ;; Ok (y :: r))
       else Ok (x :: y :: l'))%res
  end.

Fixpoint sorted (l : list A) : result (list A) :=
  match l with
  | [] => Ok []
  | x :: l' => (s <- sorted l' ;; insert_sorted x s)%res
  end.
End Sorting.

(** ** [itertools.groupby]

    Consecutive items with equal keys form one group; the key here is the
    first component ([lambda e: e[0]]). *)
Fixpoint groupby (l : list (string * string))
  : list (string * list (string * string)) :=
  match l with
  | [] => []
  | e :: l' =>
      match groupby l' with
      | (k, g) :: rest =>
          if fst e =? k then (k, e :: g) :: rest
          else (fst e, [e]) :: (k, g) :: rest
      | [] => [(fst e, [e])]
      end
  end.

(** [l[-1]] *)
Fixpoint last_item (A : Type) (l : list A) : result A :=
  match l with
  | [] => Raise IndexError
  | [x] => Ok x
  | _ :: l' => last_item l'
  end.

(** ** The module *)

Definition METADATA_KEYS : list string :=
  ["author"; "bugtrack_url"; "docs_url"; "home_page"; "license";
   "package_url"; "project_url"; "project_urls"; "summary"].

Definition CLASSIFIER : string :=
  "Framework :: Jupyter :: JupyterLab :: Extensions :: Prebuilt".

(** [PYPISTATS_ENDPOINT.format(package=name)] *)
Definition PYPISTATS_ENDPOINT (package : string) : string :=
  "https://pypistats.org/api/packages/" ++ package ++ "/recent?period=month".

(** The configurable traits of the object. *)
Record PyPILabExtensions : Type := {
  base_url : string;
  rpc_request_throttling : Q
}.

(** [_normalize_name] *)
Definition normalize_name (name : string) : string :=
  replace "_" "-" (replace "/" "-" (replace "@" "" name)).

(** Lines 126-140 of [list_packages]: the urls derived from the metadata,
    as the tuple [(source_url, homepage_url, documentation_url,
    bug_tracker_url, best_guess_home_url)]. *)
Definition display_urls (data : pydict)
  : result (pyval * pyval * pyval * pyval * pyval) :=
  let package_urls := py_or (dict_get data "project_urls") (PDict []) in
  (source_url <- py_get package_urls "Source Code" ;;
   homepage_url <-
     or_else (dict_get data "home_page") (py_get package_urls "Homepage") ;;
   documentation_url <-
     or_else (dict_get data "docs_url") (py_get package_urls "Documentation") ;;
   bug_tracker_url <-
     or_else (dict_get data "bugtrack_url") (py_get package_urls "Bug Tracker") ;;
   let best_guess_home_url :=
     py_or (py_or (py_or (py_or (py_or
       homepage_url
       (dict_get data "project_url"))
       (dict_get data "package_url"))
       documentation_url)
       source_url)
       bug_tracker_url in
   Ok (source_url, homepage_url, documentation_url, bug_tracker_url,
       best_guess_home_url))%res.

Section Program.

(** [ExtensionManager.get_semver_version], from the host application. *)
Variable get_semver_version : string -> string.

Variable env : Env.
Variable self : PyPILabExtensions.

(** *** The three effects *)

Definition fetch (url : string) : M HTTPResponse :=
  fun t => (t ++ [EvFetch url], http_fetch env t url).

Definition browse (classifiers : list string) : M (list (string * string)) :=
  fun t => (t ++ [EvBrowse classifiers], rpc_browse env t classifiers).

(** [time.sleep] refuses a negative length. *)
Definition sleep (seconds : Q) : M unit :=
  fun t =>
    if Qle_bool 0 seconds then (t ++ [EvSleep seconds], Ok tt)
    else (t, Raise ValueError).

(** *** [_fetch_package_metadata] *)
Definition fetch_package_metadata (name latest_version base_url : string)
  : M pydict :=
  response <- fetch (base_url ++ "/" ++ name ++ "/" ++ latest_version ++ "/json") ;;
  body <- lift (json_loads response) ;;
  data <- lift (py_get body "info") ;;
  match data with
  | PDict info => ret (map (fun k => (k, dict_get info k)) METADATA_KEYS)
  | _ => raise AttributeError
  end.

(** *** [__throttleRequest]

    [throttle_call again fn] is the body of the method, [again] standing
    for what lines 94-97 run after the sleep.  A [Fault] that is not the
    rate-limit one leaves the handler without binding [data], and
    [return data] then raises [UnboundLocalError]; an exception that is
    not a [Fault] is not caught. *)
Definition throttle_call (A : Type) (again : M A) (fn : M A) : M A :=
  try_except fn (fun err =>
    match err with
    | Fault faultCode faultString =>
        if (faultCode =? -32500)%Z
           && startswith faultString "HTTPTooManyRequests:"
        then
          let delay :=
            match re_search_reset faultString with
            | Some g => inject_Z (int_of_digits (if g =? "" then "1" else g))
            | None => (101 # 100)%Q
            end in
          sleep (delay * rpc_request_throttling self + (1 # 100))%Q ;;;
          again
        else raise (UnboundLocalError "data")
    | _ => raise err
    end).

Definition throttleRequest (A : Type) (recursive : bool) (fn : M A) : M A :=
  throttle_call (if recursive then throttle_call fn fn else fn) fn.

(** *** [__get_all_extensions] *)
Definition get_all_extensions : M (list (string * string)) :=
  throttleRequest true (browse [CLASSIFIER]).

(** *** [_get_monthly_download] *)
Definition get_monthly_download (name : string) : M pyval :=
  try_except
    (r <- fetch (PYPISTATS_ENDPOINT name) ;;
     body <- lift (json_loads r) ;;
     data <- lift (py_get_default body "data" (PDict [])) ;;
     lift (py_get_default data "last_month" (PInt 0)))
    (fun _ => ret (PInt 0)).

(** *** [list_packages] *)

(** The [dict(...)] of lines 142-155, from the values of the local
    variables it reads. *)
Definition display_record (normalized_name : string) (data : pydict)
           (latest_version : string)
           (source_url documentation_url bug_tracker_url
            best_guess_home_url monthly_download : pyval) : pydict :=
  [("name", PStr normalized_name);
   ("description", dict_get data "summary");
   ("homepage_url", best_guess_home_url);
   ("author", dict_get data "author");
   ("license", dict_get data "license");
   ("latest_version", PStr (get_semver_version latest_version));
   ("pkg_type", PStr "prebuilt");
   ("bug_tracker_url", bug_tracker_url);
   ("documentation_url", documentation_url);
   ("package_manager_url", dict_get data "package_url");
   ("repository_url", source_url);
   ("monthly_download", monthly_download)].

(** One turn of the loop of lines 119-155. *)
Definition loop_body (name : string) (group : list (string * string))
           (extensions : list (string * pydict)) : M (list (string * pydict)) :=
  '(_, latest_version) <- lift (last_item group) ;;
  data <- fetch_package_metadata name latest_version (base_url self) ;;
  let normalized_name := normalize_name name in
  '(source_url, homepage_url, documentation_url, bug_tracker_url,
    best_guess_home_url) <- lift (display_urls data) ;;
  monthly_download <- get_monthly_download name ;;
  ret (dict_set extensions normalized_name
         (display_record normalized_name data latest_version source_url
            documentation_url bug_tracker_url best_guess_home_url
            monthly_download)).

Fixpoint for_each_group (groups : list (string * list (string * string)))
         (extensions : list (string * pydict)) : M (list (string * pydict)) :=
  match groups with
  | [] => ret extensions
  | (name, group) :: rest =>
      extensions' <- loop_body name group extensions ;;
      for_each_group rest extensions'
  end.

Definition monthly_download_key (p : pydict) : pyval :=
  dict_get_default p "monthly_download" (PInt 0).

Definition list_packages : M (list pydict) :=
  matches <- get_all_extensions ;;
  extensions <- for_each_group (groupby matches) [] ;;
  lift (sorted monthly_download_key (values extensions)).

End Program.

(** * Vocabulary of the properties *)

(** ** Name normalisation *)

(** The normalisation as the documentation words it, character by
    character: an [@] disappears, [/] and [_] become [-], anything else
    stays. *)
Definition normalize_char (c : ascii) : string :=
  if Ascii.eqb c "@" then ""
  else if Ascii.eqb c "/" || Ascii.eqb c "_" then "-"
  else String c "".

Fixpoint normalize_spec (s : string) : string :=
  match s with
  | EmptyString => EmptyString
  | String c s' => normalize_char c ++ normalize_spec s'
  end.

(** The characters of a string. *)
Fixpoint occurs (c : ascii) (s : string) : bool :=
  match s with
  | EmptyString => false
  | String c' s' => Ascii.eqb c' c || occurs c s'
  end.


(** ** What a response amounts to *)

(** The metadata that [_fetch_package_metadata] makes of the answer to its
    request. *)
Definition metadata_of (o : result HTTPResponse) : result pydict :=
  match o with
  | Raise e => Raise e
  | Ok response =>
      match json_body response with
      | None => Raise JSONDecodeError
      | Some (PDict top) =>
          match dict_get top "info" with
          | PDict info => Ok (map (fun k => (k, dict_get info k)) METADATA_KEYS)
          | _ => Raise AttributeError
          end
      | Some _ => Raise AttributeError
      end
  end.

(** The count that [_get_monthly_download] makes of the answer to its
    request. *)
Definition monthly_of (o : result HTTPResponse) : pyval :=
  match o with
  | Raise _ => PInt 0
  | Ok response =>
      match json_body response with
      | Some (PDict top) =>
          match dict_get_default top "data" (PDict []) with
          | PDict data => dict_get_default data "last_month" (PInt 0)
          | _ => PInt 0
          end
      | _ => PInt 0
      end
  end.

(** The ways in which the statistics request fails to deliver a count. *)
Inductive stats_fetch_fails : result HTTPResponse -> Prop :=
| fails_transport (e : exn) :
    stats_fetch_fails (Raise e)
| fails_malformed_json :
    stats_fetch_fails (Ok {| json_body := None |})
| fails_not_an_object (v : pyval) :
    (forall top, v <> PDict top) ->
    stats_fetch_fails (Ok {| json_body := Some v |})
| fails_data_missing (top : pydict) :
    lookup top "data" = None ->
    stats_fetch_fails (Ok {| json_body := Some (PDict top) |})
| fails_data_not_an_object (top : pydict) (v : pyval) :
    lookup top "data" = Some v ->
    (forall data, v <> PDict data) ->
    stats_fetch_fails (Ok {| json_body := Some (PDict top) |})
| fails_last_month_missing (top data : pydict) :
    lookup top "data" = Some (PDict data) ->
    lookup data "last_month" = None ->
    stats_fetch_fails (Ok {| json_body := Some (PDict top) |}).

(** The url of the metadata request. *)
Definition metadata_url (base_url name latest_version : string) : string :=
  base_url ++ "/" ++ name ++ "/" ++ latest_version ++ "/json".

(** ** Concrete runs *)

(** Versions such as [1.0] are already in the canonical form, and
    [get_semver_version] returns them as they are; the concrete runs below
    only use such versions. *)
Definition plain_version (version : string) : string := version.

Definition default_config : PyPILabExtensions :=
  {| base_url := "https://pypi.org/pypi"; rpc_request_throttling := 1 |}.

Definition throttle_2 : PyPILabExtensions :=
  {| base_url := "https://pypi.org/pypi"; rpc_request_throttling := 2 |}.

(** A listing service that always answers with [l]. *)
Definition listing (l : list (string * string))
  : trace -> list string -> result (list (string * string)) :=
  fun _ _ => Ok l.

(** A web server with the given pages; a page without a body is one whose
    body is not JSON. *)
Definition serve (pages : list (string * option pyval))
  : trace -> string -> result HTTPResponse :=
  fun _ url =>
    match lookup pages url with
    | Some body => Ok {| json_body := body |}
    | None => Raise (OtherError "HTTP 404: Not Found")
    end.

Definition info_page (info : pydict) : option pyval :=
  Some (PDict [("info", PDict info)]).

Definition stats_page (last_month : Z) : option pyval :=
  Some (PDict [("data", PDict [("last_month", PInt last_month)])]).

(** One package whose metadata has both a [home_page] and a [Homepage]
    project url. *)
Definition env_urls : Env :=
  {| rpc_browse := listing [("pkg", "1.0")];
     http_fetch := serve
       [("https://pypi.org/pypi/pkg/1.0/json",
         info_page [("home_page", PStr "HP");
                    ("project_urls",
                     PDict [("Homepage", PStr "H"); ("Source Code", PStr "S")])]);
        ("https://pypistats.org/api/packages/pkg/recent?period=month",
         stats_page 42)] |}.

(** One package whose only url is its bug tracker. *)
Definition env_bugtracker : Env :=
  {| rpc_browse := listing [("pkg", "1.0")];
     http_fetch := serve
       [("https://pypi.org/pypi/pkg/1.0/json",
         info_page [("bugtrack_url", PStr "B")]);
        ("https://pypistats.org/api/packages/pkg/recent?period=month",
         stats_page 42)] |}.

(** One package whose metadata has [project_urls] set to [null], and whose
    statistics page is not JSON. *)
Definition env_null_urls : Env :=
  {| rpc_browse := listing [("pkg", "1.0")];
     http_fetch := serve
       [("https://pypi.org/pypi/pkg/1.0/json",
         info_page [("home_page", PStr "HP"); ("project_urls", PNone)]);
        ("https://pypistats.org/api/packages/pkg/recent?period=month",
         None)] |}.

(** ** Throttling *)

(** The test of line 85. *)
Definition is_rate_limit (faultCode : Z) (faultString : string) : bool :=
  (faultCode =? -32500)%Z && startswith faultString "HTTPTooManyRequests:".

(** The length of the sleep of line 93 for a given fault message. *)
Definition backoff (self : PyPILabExtensions) (faultString : string) : Q :=
  ((match re_search_reset faultString with
    | Some g => inject_Z (int_of_digits (if g =? "" then "1" else g))
    | None => 101 # 100
    end) * rpc_request_throttling self + (1 # 100))%Q.

(** The number of calls of the listing service in a trace. *)
Fixpoint attempts (t : trace) : nat :=
  match t with
  | [] => 0
  | EvBrowse _ :: t' => S (attempts t')
  | _ :: t' => attempts t'
  end.

Definition too_many_requests_message : string :=
  "HTTPTooManyRequests: The action could not be performed because there "
  ++ "were too many requests by the client. Limit may reset in 5 seconds.".

Definition too_many_requests : exn := Fault (-32500) too_many_requests_message.

(** A listing service that keeps answering with the rate-limit fault. *)
Definition env_rate_limited : Env :=
  {| rpc_browse := fun _ _ => Raise too_many_requests;
     http_fetch := serve [] |}.

Definition method_not_found : exn :=
  Fault (-32601) "server error; requested method not found".

(** A listing service that answers with another fault. *)
Definition env_other_fault : Env :=
  {| rpc_browse := fun _ _ => Raise method_not_found;
     http_fetch := serve [] |}.

(** A listing service that answers with the rate-limit fault twice and
    with a listing the third time. *)
Definition env_third_time_lucky : Env :=
  {| rpc_browse := fun t _ =>
       if (attempts t <? 2)%nat then Raise too_many_requests
       else Ok [("pkg", "1.0")];
     http_fetch := serve [] |}.

(** [m] only adds to the trace, and calls the listing service at most [n]
    times. *)
Definition calls_at_most (A : Type) (m : M A) (n : nat) : Prop :=
  forall t, exists added, fst (m t) = t ++ added /\ attempts added <= n.

(** ** Order of the catalogue *)

(** [a] is not after [b] in the order of the sort: [b < a] is false. *)
Definition key_le (a b : pyval) : Prop := py_lt b a = Ok false.

(** [a] and [b] are equal for the sort: neither is smaller. *)
Definition ties (a b : pyval) : bool :=
  match py_lt a b, py_lt b a with
  | Ok false, Ok false => true
  | _, _ => false
  end.

(** The item [x] is not after the item [y] when the items are ordered by
    [key]. *)
Definition key_ordered (A : Type) (key : A -> pyval) (x y : A) : Prop :=
  key_le (key x) (key y).

(** ** Candidates and groups *)

(** The last item of [l] that satisfies [p]. *)
Fixpoint last_such (A : Type) (p : A -> bool) (l : list A) : option A :=
  match l with
  | [] => None
  | x :: l' =>
      match last_such p l' with
      | Some y => Some y
      | None => if p x then Some x else None
      end
  end.

(** The candidate is listed under the raw name [name]. *)
Definition has_name (name : string) (candidate : string * string) : bool :=
  fst candidate =? name.

(** The candidate is filed under the key [key] of the catalogue. *)
Definition has_key (key : string) (candidate : string * string) : bool :=
  normalize_name (fst candidate) =? key.

(** The group is filed under the key [key] of the catalogue. *)
Definition group_has_key (key : string) (g : string * list (string * string)) : bool :=
  normalize_name (fst g) =? key.

(** The keys of a dictionary after [d[k] = ...]. *)
Definition add_key (keys : list string) (k : string) : list string :=
  if existsb (fun k' => k' =? k) keys then keys else keys ++ [k].

(** The keys of the catalogue: the normalised names of the candidates, each
    one once. *)
Definition catalog_keys (matches : list (string * string)) : list string :=
  nodup string_dec (map (fun c => normalize_name (fst c)) matches).

(** ** More concrete runs *)

(** Two packages; the metadata of the second one cannot be fetched. *)
Definition env_broken_metadata : Env :=
  {| rpc_browse := listing [("good", "1.0"); ("bad", "1.0")];
     http_fetch := serve
       [("https://pypi.org/pypi/good/1.0/json", info_page [("summary", PStr "fine")]);
        ("https://pypistats.org/api/packages/good/recent?period=month",
         stats_page 7)] |}.

(** Three packages, listed with several versions each, two of them with the
    same number of downloads. *)
Definition env_three : Env :=
  {| rpc_browse :=
       listing [("a", "1.0"); ("a", "1.1"); ("b", "0.1"); ("c", "2.0"); ("c", "3.0")];
     http_fetch := serve
       [("https://pypi.org/pypi/a/1.1/json", info_page [("summary", PStr "A")]);
        ("https://pypi.org/pypi/b/0.1/json", info_page [("summary", PStr "B")]);
        ("https://pypi.org/pypi/c/3.0/json", info_page [("summary", PStr "C")]);
        ("https://pypistats.org/api/packages/a/recent?period=month", stats_page 30);
        ("https://pypistats.org/api/packages/b/recent?period=month", stats_page 10);
        ("https://pypistats.org/api/packages/c/recent?period=month", stats_page 10)] |}.

(** Two raw names with the same normalised name. *)
Definition env_collision : Env :=
  {| rpc_browse := listing [("a_b", "1.0"); ("a-b", "2.0")];
     http_fetch := serve
       [("https://pypi.org/pypi/a_b/1.0/json", info_page [("summary", PStr "first")]);
        ("https://pypi.org/pypi/a-b/2.0/json", info_page [("summary", PStr "second")]);
        ("https://pypistats.org/api/packages/a_b/recent?period=month", stats_page 5);
        ("https://pypistats.org/api/packages/a-b/recent?period=month", stats_page 6)] |}.

(** Two packages; the statistics of the second one carry a [null] count. *)
Definition env_null_count : Env :=
  {| rpc_browse := listing [("a", "1.0"); ("b", "1.0")];
     http_fetch := serve
       [("https://pypi.org/pypi/a/1.0/json", info_page []);
        ("https://pypi.org/pypi/b/1.0/json", info_page []);
        ("https://pypistats.org/api/packages/a/recent?period=month", stats_page 3);
        ("https://pypistats.org/api/packages/b/recent?period=month",
         Some (PDict [("data", PDict [("last_month", PNone)])]))] |}.

(** ** Vocabulary of the further properties *)

(** The keys of a display record, in the order of the [dict(...)] call. *)
Definition RECORD_KEYS : list string :=
  ["name"; "description"; "homepage_url"; "author"; "license";
   "latest_version"; "pkg_type"; "bug_tracker_url"; "documentation_url";
   "package_manager_url"; "repository_url"; "monthly_download"].

(** The two requests of a turn of the loop for the group [g]: the metadata
    of the last version of the group, then the statistics of its name. *)
Definition group_requests (base_url : string)
           (g : string * list (string * string)) : list event :=
  match last_item (snd g) with
  | Ok (_, latest_version) =>
      [EvFetch (metadata_url base_url (fst g) latest_version);
       EvFetch (PYPISTATS_ENDPOINT (fst g))]
  | Raise _ => []
  end.






(** A listing service that cannot be reached. *)
Definition env_unreachable : Env :=
  {| rpc_browse := fun _ _ => Raise (OtherError "ConnectionRefusedError");
     http_fetch := serve [] |}.

(** One package whose [project_urls] is a string. *)
Definition env_urls_not_a_map : Env :=
  {| rpc_browse := listing [("pkg", "1.0")];
     http_fetch := serve
       [("https://pypi.org/pypi/pkg/1.0/json",
         info_page [("project_urls", PStr "https://example.org")]);
        ("https://pypistats.org/api/packages/pkg/recent?period=month",
         stats_page 42)] |}.

(** One package with every url the loop looks at. *)
Definition env_all_urls : Env :=
  {| rpc_browse := listing [("pkg", "1.0")];
     http_fetch := serve
       [("https://pypi.org/pypi/pkg/1.0/json",
         info_page [("docs_url", PStr "D"); ("package_url", PStr "P");
                    ("summary", PStr "about"); ("classifiers", PStr "dropped");
                    ("project_urls",
                     PDict [("Documentation", PStr "PD");
                            ("Bug Tracker", PStr "PB");
                            ("Source Code", PStr "S")])]);
        ("https://pypistats.org/api/packages/pkg/recent?period=month",
         stats_page 42)] |}.

(** A name that comes back after another one in the listing. *)
Definition env_interleaved : Env :=
  {| rpc_browse := listing [("b_x", "1.0"); ("a", "1.0"); ("b-x", "2.0")];
     http_fetch := serve
       [("https://pypi.org/pypi/b_x/1.0/json", info_page []);
        ("https://pypi.org/pypi/a/1.0/json", info_page []);
        ("https://pypi.org/pypi/b-x/2.0/json", info_page [])] |}.

(** No two neighbours in [ks] are equal. *)
Fixpoint no_equal_neighbours (ks : list string) : Prop :=
  match ks with
  | k1 :: ((k2 :: _) as rest) => k1 <> k2 /\ no_equal_neighbours rest
  | _ => True
  end.

(** * Properties *)

(** ** Name normalisation *)

Lemma normalize_name_spec (s : string) : normalize_name s = normalize_spec s.
Proof.
  unfold normalize_name.
  induction s as [|c s IH]; [reflexivity|].
  cbn [replace normalize_spec]. unfold normalize_char.
  destruct (Ascii.eqb c "@") eqn:Eat.
  - exact IH.
  - cbn [replace].
    destruct (Ascii.eqb c "/") eqn:Esl.
    + cbn. now rewrite IH.
    + cbn [replace]. destruct (Ascii.eqb c "_") eqn:Eun; cbn; now rewrite IH.
Qed.

Lemma normalize_spec_app (a b : string) :
  normalize_spec (a ++ b) = (normalize_spec a ++ normalize_spec b)%string.
Proof.
  induction a as [|c a IH]; [reflexivity|].
  cbn. rewrite IH. generalize (normalize_char c) (normalize_spec a) (normalize_spec b).
  intros x y z. induction x as [|d x IHx]; cbn; [reflexivity | now rewrite IHx].
Qed.

Lemma normalize_char_fixed (c : ascii) :
  normalize_spec (normalize_char c) = normalize_char c.
Proof.
  unfold normalize_char.
  destruct (Ascii.eqb c "@") eqn:Eat; [reflexivity|].
  destruct (Ascii.eqb c "/") eqn:Esl; [reflexivity|].
  destruct (Ascii.eqb c "_") eqn:Eun; [reflexivity|].
  cbn. unfold normalize_char. now rewrite Eat, Esl, Eun.
Qed.

Lemma normalize_spec_idempotent (s : string) :
  normalize_spec (normalize_spec s) = normalize_spec s.
Proof.
  induction s as [|c s IH]; [reflexivity|].
  cbn. now rewrite normalize_spec_app, normalize_char_fixed, IH.
Qed.

Lemma occurs_app (c : ascii) (a b : string) :
  occurs c (a ++ b) = occurs c a || occurs c b.
Proof.
  induction a as [|d a IH]; cbn; [reflexivity|].
  now rewrite IH, orb_assoc.
Qed.

Lemma normalize_spec_clean (s : string) :
  occurs "@" (normalize_spec s) = false
  /\ occurs "/" (normalize_spec s) = false
  /\ occurs "_" (normalize_spec s) = false.
Proof.
  induction s as [|c s (IH1 & IH2 & IH3)]; [now cbn|].
  cbn. rewrite !occurs_app, IH1, IH2, IH3, !orb_false_r.
  unfold normalize_char.
  destruct (Ascii.eqb c "@") eqn:Eat; [now cbn|].
  destruct (Ascii.eqb c "/") eqn:Esl; [now cbn|].
  destruct (Ascii.eqb c "_") eqn:Eun; [now cbn|].
  cbn. now rewrite Eat, Esl, Eun.
Qed.

(** C8: [_normalize_name] removes every [@] and turns every [/] and [_]
    into [-], leaving the other characters in place; its result contains
    none of the three characters; it is idempotent; and it sends
    [@scope/pkg_name] to [scope-pkg-name]. *)
Theorem normalize_name_idempotent :
  (forall x, normalize_name x = normalize_spec x)
  /\ (forall x, occurs "@" (normalize_name x) = false
                /\ occurs "/" (normalize_name x) = false
                /\ occurs "_" (normalize_name x) = false)
  /\ (forall x, normalize_name (normalize_name x) = normalize_name x)
  /\ normalize_name "@scope/pkg_name" = "scope-pkg-name".
Proof.
  split; [exact normalize_name_spec|].
  split; [intro x; rewrite normalize_name_spec; apply normalize_spec_clean|].
  split; [|reflexivity].
  intro x. rewrite !normalize_name_spec. apply normalize_spec_idempotent.
Qed.

(** ** Dictionaries *)

Lemma lookup_dict_set_same (A : Type) (d : list (string * A)) k v :
  lookup (dict_set d k v) k = Some v.
Proof.
  induction d as [|[k' v'] d IH]; cbn.
  - now rewrite String.eqb_refl.
  - destruct (k' =? k) eqn:E; cbn; rewrite E; [reflexivity | exact IH].
Qed.

Lemma lookup_dict_set_other (A : Type) (d : list (string * A)) k k' v :
  k <> k' -> lookup (dict_set d k v) k' = lookup d k'.
Proof.
  intro Hne. induction d as [|[k0 v0] d IH]; cbn.
  - destruct (k =? k') eqn:E; [apply String.eqb_eq in E; contradiction | reflexivity].
  - destruct (k0 =? k) eqn:E; cbn.
    + apply String.eqb_eq in E; subst k0.
      destruct (k =? k') eqn:E'; [apply String.eqb_eq in E'; contradiction | reflexivity].
    + now rewrite IH.
Qed.

(** ** One turn of the loop *)

Section Loop.
Variable get_semver_version : string -> string.
Variable env : Env.
Variable self : PyPILabExtensions.

Lemma fetch_package_metadata_eq name latest_version base t :
  fetch_package_metadata env name latest_version base t
  = (t ++ [EvFetch (metadata_url base name latest_version)],
     metadata_of (http_fetch env t (metadata_url base name latest_version))).
Proof.
  unfold fetch_package_metadata, metadata_url, bind, fetch, lift, json_loads,
    metadata_of.
  destruct (http_fetch env t _) as [[[v|]]|e]; cbn; try reflexivity.
  destruct v; cbn; try reflexivity.
  unfold dict_get. destruct (dict_get_default d "info" PNone); reflexivity.
Qed.

Lemma fetch_package_metadata_ok name latest_version base t t1 data :
  fetch_package_metadata env name latest_version base t = (t1, Ok data) ->
  t1 = t ++ [EvFetch (metadata_url base name latest_version)]
  /\ metadata_of (http_fetch env t (metadata_url base name latest_version))
     = Ok data.
Proof.
  rewrite fetch_package_metadata_eq. intro H. injection H as <- H. now split.
Qed.

Lemma get_monthly_download_eq name t :
  get_monthly_download env name t
  = (t ++ [EvFetch (PYPISTATS_ENDPOINT name)],
     Ok (monthly_of (http_fetch env t (PYPISTATS_ENDPOINT name)))).
Proof.
  unfold get_monthly_download, try_except, bind, fetch, lift, json_loads,
    monthly_of, ret.
  destruct (http_fetch env t _) as [[[v|]]|e]; cbn; try reflexivity.
  destruct v; cbn; try reflexivity.
  destruct (dict_get_default d "data" (PDict [])); reflexivity.
Qed.

Lemma monthly_of_failure o : stats_fetch_fails o -> monthly_of o = PInt 0.
Proof.
  intros H. destruct H as [e| |v Hv|top Hd|top v Hd Hv|top data Hd Hl]; cbn.
  - reflexivity.
  - reflexivity.
  - destruct v; try reflexivity. now elim (Hv d).
  - unfold dict_get_default. now rewrite Hd.
  - unfold dict_get_default. rewrite Hd.
    destruct v; try reflexivity. now elim (Hv d).
  - unfold dict_get_default. now rewrite Hd, Hl.
Qed.

(** A turn whose metadata request and url derivation succeed ends well,
    after exactly two requests. *)
Lemma loop_body_ok name group extensions t e latest_version data
      source_url homepage_url documentation_url bug_tracker_url best :
  last_item group = Ok (e, latest_version) ->
  metadata_of (http_fetch env t (metadata_url (base_url self) name latest_version))
  = Ok data ->
  display_urls data
  = Ok (source_url, homepage_url, documentation_url, bug_tracker_url, best) ->
  let t1 := t ++ [EvFetch (metadata_url (base_url self) name latest_version)] in
  loop_body get_semver_version env self name group extensions t
  = (t1 ++ [EvFetch (PYPISTATS_ENDPOINT name)],
     Ok (dict_set extensions (normalize_name name)
           (display_record get_semver_version (normalize_name name) data
              latest_version source_url documentation_url bug_tracker_url
              best
              (monthly_of (http_fetch env t1 (PYPISTATS_ENDPOINT name)))))).
Proof.
  intros Hlast Hmeta Hurls t1.
  unfold loop_body, bind at 1. unfold lift at 1. rewrite Hlast.
  unfold bind at 1. rewrite fetch_package_metadata_eq, Hmeta.
  unfold bind at 1. unfold lift at 1. rewrite Hurls.
  unfold bind. rewrite get_monthly_download_eq. reflexivity.
Qed.

(** Conversely, a turn that ends well has gone through all of that. *)
Lemma loop_body_inv name group extensions t t' extensions' :
  loop_body get_semver_version env self name group extensions t
  = (t', Ok extensions') ->
  exists e latest_version data source_url homepage_url documentation_url
         bug_tracker_url best,
    last_item group = Ok (e, latest_version)
    /\ metadata_of (http_fetch env t (metadata_url (base_url self) name latest_version))
       = Ok data
    /\ display_urls data
       = Ok (source_url, homepage_url, documentation_url, bug_tracker_url, best)
    /\ let t1 := t ++ [EvFetch (metadata_url (base_url self) name latest_version)] in
       t' = t1 ++ [EvFetch (PYPISTATS_ENDPOINT name)]
       /\ extensions'
          = dict_set extensions (normalize_name name)
              (display_record get_semver_version (normalize_name name) data
                 latest_version source_url documentation_url bug_tracker_url
                 best
                 (monthly_of (http_fetch env t1 (PYPISTATS_ENDPOINT name)))).
Proof.
  intro H.
  destruct (last_item group) as [[e latest_version]|x] eqn:Hlast;
    [|unfold loop_body, bind, lift in H; rewrite Hlast in H; discriminate].
  destruct (metadata_of (http_fetch env t (metadata_url (base_url self) name latest_version)))
    as [data|x] eqn:Hmeta;
    [|unfold loop_body, bind at 1 in H; unfold lift at 1 in H; rewrite Hlast in H;
      unfold bind at 1 in H; rewrite fetch_package_metadata_eq, Hmeta in H;
      discriminate].
  destruct (display_urls data) as [[[[[s h] d] b] g]|x] eqn:Hurls;
    [|unfold loop_body, bind at 1 in H; unfold lift at 1 in H; rewrite Hlast in H;
      unfold bind at 1 in H; rewrite fetch_package_metadata_eq, Hmeta in H;
      unfold bind at 1 in H; unfold lift at 1 in H; rewrite Hurls in H;
      discriminate].
  rewrite (loop_body_ok name group extensions t Hlast Hmeta Hurls) in H.
  injection H as <- <-.
  exists e, latest_version, data, s, h, d, b, g. repeat split; assumption.
Qed.

End Loop.

(** ** The display urls *)

Lemma display_urls_dict (data urls : pydict) :
  py_or (dict_get data "project_urls") (PDict []) = PDict urls ->
  display_urls data
  = Ok (dict_get urls "Source Code",
        py_or (dict_get data "home_page") (dict_get urls "Homepage"),
        py_or (dict_get data "docs_url") (dict_get urls "Documentation"),
        py_or (dict_get data "bugtrack_url") (dict_get urls "Bug Tracker"),
        py_or (py_or (py_or (py_or (py_or
          (py_or (dict_get data "home_page") (dict_get urls "Homepage"))
          (dict_get data "project_url"))
          (dict_get data "package_url"))
          (py_or (dict_get data "docs_url") (dict_get urls "Documentation")))
          (dict_get urls "Source Code"))
          (py_or (dict_get data "bugtrack_url") (dict_get urls "Bug Tracker"))).
Proof.
  intro H. unfold display_urls. rewrite H. cbn [py_get py_get_default rbind].
  unfold or_else, py_or, dict_get.
  destruct (truthy (dict_get_default data "home_page" PNone));
  destruct (truthy (dict_get_default data "docs_url" PNone));
  destruct (truthy (dict_get_default data "bugtrack_url" PNone)); reflexivity.
Qed.

Lemma display_urls_inv (data : pydict) s h d b g :
  display_urls data = Ok (s, h, d, b, g) ->
  exists urls, py_or (dict_get data "project_urls") (PDict []) = PDict urls.
Proof.
  unfold display_urls.
  destruct (py_or (dict_get data "project_urls") (PDict [])); cbn; try discriminate.
  intros _. now eexists.
Qed.

Lemma py_or_chain_find (a b c d e f : pyval) :
  py_or (py_or (py_or (py_or (py_or a b) c) d) e) f
  = match find truthy [a; b; c; d; e; f] with Some v => v | None => f end.
Proof.
  unfold py_or. cbn [find].
  destruct (truthy a) eqn:Ea; [now repeat (cbn iota; rewrite ?Ea)|].
  destruct (truthy b) eqn:Eb; [now repeat (cbn iota; rewrite ?Eb)|].
  destruct (truthy c) eqn:Ec; [now repeat (cbn iota; rewrite ?Ec)|].
  destruct (truthy d) eqn:Ed; [now repeat (cbn iota; rewrite ?Ed)|].
  destruct (truthy e) eqn:Ee; [now repeat (cbn iota; rewrite ?Ee)|].
  destruct (truthy f); reflexivity.
Qed.

Section Urls.
Variable get_semver_version : string -> string.
Variable env : Env.
Variable self : PyPILabExtensions.

(** C1 (as the code has it): the homepage url is the metadata [home_page]
    when that is non-empty, and [project_urls["Homepage"]] otherwise.  A
    package whose metadata has [home_page = "HP"] and project urls with
    [Homepage = "H"] and [Source Code = "S"] gets a record whose
    [homepage_url] is ["HP"] and whose [repository_url] is ["S"]. *)
Theorem homepage_url_prefers_home_page :
  (forall (data urls : pydict),
      py_or (dict_get data "project_urls") (PDict []) = PDict urls ->
      exists s d b g,
        display_urls data
        = Ok (s,
              (if truthy (dict_get data "home_page")
               then dict_get data "home_page"
               else dict_get urls "Homepage"),
              d, b, g))
  /\ (forall name group extensions t e latest_version t1 data urls,
         last_item group = Ok (e, latest_version) ->
         fetch_package_metadata env name latest_version (base_url self) t
         = (t1, Ok data) ->
         dict_get data "home_page" = PStr "HP" ->
         dict_get data "project_urls" = PDict urls ->
         lookup urls "Homepage" = Some (PStr "H") ->
         lookup urls "Source Code" = Some (PStr "S") ->
         exists t' extensions' r,
           loop_body get_semver_version env self name group extensions t
           = (t', Ok extensions')
           /\ lookup extensions' (normalize_name name) = Some r
           /\ dict_get r "homepage_url" = PStr "HP"
           /\ dict_get r "repository_url" = PStr "S").
Proof.
  split.
  - intros data urls H. rewrite (display_urls_dict data H).
    unfold py_or at 6. now do 4 eexists.
  - intros name group extensions t e latest_version t1 data urls
           Hlast Hfetch Hhp Hpu Hh Hs.
    apply fetch_package_metadata_ok in Hfetch as [_ Hmeta].
    assert (Hor : py_or (dict_get data "project_urls") (PDict []) = PDict urls).
    { rewrite Hpu. unfold py_or. cbn. destruct urls; [discriminate | reflexivity]. }
    pose proof (loop_body_ok get_semver_version env self name group extensions
                  t Hlast Hmeta (display_urls_dict data Hor)) as Hbody.
    cbv zeta in Hbody. rewrite Hbody.
    do 3 eexists. split; [reflexivity|].
    split; [apply lookup_dict_set_same|].
    rewrite Hhp. unfold dict_get at 1 3, dict_get_default. cbn.
    unfold dict_get, dict_get_default. now rewrite Hs.
Qed.

(** C4 (as the code has it): the [homepage_url] of the record is the
    first non-empty value among six candidates, in this order: homepage
    url, [project_url], [package_url], documentation url, repository url,
    bug tracker url; when all six are empty it is the (empty) bug tracker
    url. *)
Theorem best_guess_home_url_first_of_six
        (data : pydict) (s h d b g : pyval) :
  display_urls data = Ok (s, h, d, b, g) ->
  g = match find truthy
                 [h; dict_get data "project_url"; dict_get data "package_url";
                  d; s; b]
      with
      | Some v => v
      | None => b
      end
  /\ forall normalized_name latest_version monthly_download,
      dict_get (display_record get_semver_version normalized_name data
                  latest_version s d b g monthly_download) "homepage_url"
      = g.
Proof.
  intro H. split; [|reflexivity].
  destruct (display_urls_inv data H) as [urls Hurls].
  rewrite (display_urls_dict data Hurls) in H.
  injection H as <- <- <- <- <-. apply py_or_chain_find.
Qed.

(** C10: when the [project_urls] of the metadata is [null] or absent, the
    lookups into it yield [None] exactly as for an empty map, and the turn
    of the loop goes on to build the record of the package. *)
Theorem null_project_urls_is_empty_map
        name group extensions t e latest_version top info :
  last_item group = Ok (e, latest_version) ->
  http_fetch env t (metadata_url (base_url self) name latest_version)
  = Ok {| json_body := Some (PDict top) |} ->
  dict_get top "info" = PDict info ->
  lookup info "project_urls" = None \/ lookup info "project_urls" = Some PNone ->
  exists t1 data best,
    fetch_package_metadata env name latest_version (base_url self) t
    = (t1, Ok data)
    /\ display_urls data
       = Ok (PNone,
             py_or (dict_get info "home_page") PNone,
             py_or (dict_get info "docs_url") PNone,
             py_or (dict_get info "bugtrack_url") PNone,
             best)
    /\ display_urls data = display_urls (("project_urls", PDict []) :: data)
    /\ exists t' monthly_download,
        loop_body get_semver_version env self name group extensions t
        = (t',
           Ok (dict_set extensions (normalize_name name)
                 (display_record get_semver_version (normalize_name name)
                    data latest_version PNone
                    (py_or (dict_get info "docs_url") PNone)
                    (py_or (dict_get info "bugtrack_url") PNone)
                    best monthly_download))).
Proof.
  intros Hlast Hfetch Hinfo Hnull.
  assert (Hmeta : metadata_of
                    (http_fetch env t
                       (metadata_url (base_url self) name latest_version))
                  = Ok (map (fun k => (k, dict_get info k)) METADATA_KEYS)).
  { rewrite Hfetch. cbn. now rewrite Hinfo. }
  set (data := map (fun k => (k, dict_get info k)) METADATA_KEYS) in *.
  assert (Hpu : dict_get data "project_urls" = PNone).
  { cbn. unfold dict_get, dict_get_default.
    destruct Hnull as [-> | ->]; reflexivity. }
  assert (Hor : py_or (dict_get data "project_urls") (PDict []) = PDict []).
  { now rewrite Hpu. }
  pose proof (display_urls_dict data Hor) as Hurls.
  change (dict_get [] "Source Code") with PNone in Hurls.
  change (dict_get [] "Homepage") with PNone in Hurls.
  change (dict_get [] "Documentation") with PNone in Hurls.
  change (dict_get [] "Bug Tracker") with PNone in Hurls.
  change (dict_get data "home_page") with (dict_get info "home_page") in Hurls.
  change (dict_get data "docs_url") with (dict_get info "docs_url") in Hurls.
  change (dict_get data "bugtrack_url") with (dict_get info "bugtrack_url") in Hurls.
  eexists _, data, _.
  split; [rewrite fetch_package_metadata_eq, Hmeta; reflexivity|].
  split; [exact Hurls|].
  split.
  - rewrite (display_urls_dict data Hor).
    now rewrite (display_urls_dict (("project_urls", PDict []) :: data)
                   (urls := []) eq_refl).
  - pose proof (loop_body_ok get_semver_version env self name group extensions
                  t Hlast Hmeta Hurls) as Hbody.
    cbv zeta in Hbody. rewrite Hbody. now do 2 eexists.
Qed.

(** C5: the statistics request never makes [_get_monthly_download] raise;
    when it fails (transport error, body that is not JSON, body or [data]
    that is not an object, missing [data] or [last_month] key) the count
    is exactly [0], the record of the package carries that [0], and the
    turn of the loop ends normally. *)
Theorem monthly_download_defaults_to_zero :
  (forall name t,
      exists count,
        get_monthly_download env name t
        = (t ++ [EvFetch (PYPISTATS_ENDPOINT name)], Ok count)
        /\ (stats_fetch_fails (http_fetch env t (PYPISTATS_ENDPOINT name)) ->
            count = PInt 0))
  /\ (forall name group extensions t e latest_version t1 data s h d b g,
         last_item group = Ok (e, latest_version) ->
         fetch_package_metadata env name latest_version (base_url self) t
         = (t1, Ok data) ->
         display_urls data = Ok (s, h, d, b, g) ->
         stats_fetch_fails (http_fetch env t1 (PYPISTATS_ENDPOINT name)) ->
         exists t' extensions' r,
           loop_body get_semver_version env self name group extensions t
           = (t', Ok extensions')
           /\ lookup extensions' (normalize_name name) = Some r
           /\ dict_get r "monthly_download" = PInt 0).
Proof.
  split.
  - intros name t. eexists. split; [apply get_monthly_download_eq|].
    apply monthly_of_failure.
  - intros name group extensions t e latest_version t1 data s h d b g
           Hlast Hfetch Hurls Hfail.
    apply fetch_package_metadata_ok in Hfetch as [-> Hmeta].
    pose proof (loop_body_ok get_semver_version env self name group extensions
                  t Hlast Hmeta Hurls) as Hbody.
    cbv zeta in Hbody. rewrite Hbody.
    do 3 eexists. split; [reflexivity|].
    split; [apply lookup_dict_set_same|].
    rewrite (monthly_of_failure Hfail). reflexivity.
Qed.

End Urls.

(** ** The throttled call *)

Section Throttle.
Variable self : PyPILabExtensions.
Variable A : Type.
Variables again fn : M A.

Lemma throttle_call_ok t t1 a :
  fn t = (t1, Ok a) -> throttle_call self again fn t = (t1, Ok a).
Proof. intro H. unfold throttle_call, try_except. now rewrite H. Qed.

Lemma throttle_call_rate_limited t t1 code msg :
  fn t = (t1, Raise (Fault code msg)) ->
  is_rate_limit code msg = true ->
  Qle_bool 0 (backoff self msg) = true ->
  throttle_call self again fn t = again (t1 ++ [EvSleep (backoff self msg)]).
Proof.
  intros H Hrl Hpos. unfold throttle_call, try_except. rewrite H.
  unfold is_rate_limit in Hrl. rewrite Hrl.
  unfold bind, sleep. fold (backoff self msg). now rewrite Hpos.
Qed.

Lemma throttle_call_other_fault t t1 code msg :
  fn t = (t1, Raise (Fault code msg)) ->
  is_rate_limit code msg = false ->
  throttle_call self again fn t = (t1, Raise (UnboundLocalError "data")).
Proof.
  intros H Hrl. unfold throttle_call, try_except. rewrite H.
  unfold is_rate_limit in Hrl. now rewrite Hrl.
Qed.

Lemma throttle_call_not_fault t t1 e :
  fn t = (t1, Raise e) ->
  (forall code msg, e <> Fault code msg) ->
  throttle_call self again fn t = (t1, Raise e).
Proof.
  intros H Hnf. unfold throttle_call, try_except. rewrite H.
  destruct e; try reflexivity. now elim (Hnf faultCode faultString).
Qed.
End Throttle.

(** The method calls itself with [recursive = False]. *)
Lemma throttleRequest_eq self (A : Type) (recursive : bool) (fn : M A) :
  throttleRequest self recursive fn
  = throttle_call self
      (if recursive then throttleRequest self false fn else fn) fn.
Proof. now destruct recursive. Qed.

Lemma attempts_app (a b : trace) : attempts (a ++ b) = attempts a + attempts b.
Proof.
  induction a as [|[c|s|u] a IH]; cbn; [reflexivity | now rewrite IH | exact IH | exact IH].
Qed.

Lemma throttle_call_calls_at_most self (A : Type) (again fn : M A) a b :
  calls_at_most fn a -> calls_at_most again b ->
  calls_at_most (throttle_call self again fn) (a + b).
Proof.
  intros Hfn Hagain t. destruct (Hfn t) as (x & Hx & Hle).
  unfold throttle_call, try_except. destruct (fn t) as [t1 [v|e]]; cbn in Hx; subst t1.
  - exists x. split; [reflexivity | lia].
  - destruct e; try (exists x; split; [reflexivity | lia]).
    destruct ((faultCode =? -32500)%Z && startswith faultString "HTTPTooManyRequests:");
      [|exists x; split; [reflexivity | lia]].
    unfold bind, sleep. destruct (Qle_bool 0 _); [|exists x; split; [reflexivity | lia]].
    match goal with |- context[again ?u] => destruct (Hagain u) as (y & Hy & Hley) end.
    rewrite Hy. eexists. rewrite <- !app_assoc. split; [reflexivity|].
    rewrite !attempts_app. cbn. lia.
Qed.

Section Listing.
Variable env : Env.
Variable self : PyPILabExtensions.

Lemma browse_calls_once classifiers : calls_at_most (browse env classifiers) 1.
Proof. intro t. exists [EvBrowse classifiers]. now split. Qed.

(** A fault of the listing service that is not the rate-limit one is
    caught and lost: the run ends in [UnboundLocalError]. *)
Lemma get_all_extensions_other_fault t code msg :
  rpc_browse env t [CLASSIFIER] = Raise (Fault code msg) ->
  is_rate_limit code msg = false ->
  get_all_extensions env self t
  = (t ++ [EvBrowse [CLASSIFIER]], Raise (UnboundLocalError "data")).
Proof.
  intros H Hrl. unfold get_all_extensions, throttleRequest.
  apply throttle_call_other_fault with (code := code) (msg := msg); [|exact Hrl].
  unfold browse. now rewrite H.
Qed.

(** An exception of the listing service that is not a [Fault] goes
    through. *)
Lemma get_all_extensions_not_fault t e :
  rpc_browse env t [CLASSIFIER] = Raise e ->
  (forall code msg, e <> Fault code msg) ->
  get_all_extensions env self t = (t ++ [EvBrowse [CLASSIFIER]], Raise e).
Proof.
  intros H Hnf. unfold get_all_extensions, throttleRequest.
  apply throttle_call_not_fault; [|exact Hnf].
  unfold browse. now rewrite H.
Qed.

(** C2 (as the code has it): on a rate-limit fault of the listing call
    whose reset hint reads 5 seconds, with the throttle set to 2, the
    wrapper sleeps 10.01 and calls again.  If that second call succeeds its
    result is returned.  If it fails with such a rate-limit fault again,
    the wrapper sleeps 10.01 once more and calls a third time, and the
    outcome of the third call, a listing or whatever it raises, is the
    outcome of the wrapper.  In no run does the wrapper call the listing
    service more than three times. *)
Theorem throttle_retries_at_most_twice :
  (forall t msg1,
      rpc_browse env t [CLASSIFIER] = Raise (Fault (-32500) msg1) ->
      startswith msg1 "HTTPTooManyRequests:" = true ->
      re_search_reset msg1 = Some "5" ->
      rpc_request_throttling self = 2%Q ->
      let t1 := t ++ [EvBrowse [CLASSIFIER]; EvSleep (1001 # 100)] in
      (forall l,
          rpc_browse env t1 [CLASSIFIER] = Ok l ->
          get_all_extensions env self t = (t1 ++ [EvBrowse [CLASSIFIER]], Ok l))
      /\ (forall msg2,
             rpc_browse env t1 [CLASSIFIER] = Raise (Fault (-32500) msg2) ->
             startswith msg2 "HTTPTooManyRequests:" = true ->
             re_search_reset msg2 = Some "5" ->
             let t2 := t1 ++ [EvBrowse [CLASSIFIER]; EvSleep (1001 # 100)] in
             get_all_extensions env self t
             = (t2 ++ [EvBrowse [CLASSIFIER]], rpc_browse env t2 [CLASSIFIER])))
  /\ (forall t,
         exists added,
           fst (get_all_extensions env self t) = t ++ added
           /\ attempts added <= 3).
Proof.
  split.
  - intros t msg1 H1 Hp1 Hs1 Hthr t1.
    assert (Hback : forall msg, re_search_reset msg = Some "5" ->
                                backoff self msg = (1001 # 100)%Q).
    { intros msg Hs. unfold backoff. rewrite Hs, Hthr. reflexivity. }
    assert (Hfirst : get_all_extensions env self t
                     = throttle_call self (browse env [CLASSIFIER])
                         (browse env [CLASSIFIER]) t1).
    { unfold get_all_extensions, throttleRequest.
      rewrite throttle_call_rate_limited
        with (t1 := t ++ [EvBrowse [CLASSIFIER]]) (code := (-32500)%Z) (msg := msg1).
      - rewrite (Hback msg1 Hs1), <- app_assoc. reflexivity.
      - unfold browse. now rewrite H1.
      - unfold is_rate_limit. now rewrite Hp1.
      - now rewrite (Hback msg1 Hs1). }
    split.
    + intros l H2. rewrite Hfirst. apply throttle_call_ok.
      unfold browse. now rewrite H2.
    + intros msg2 H2 Hp2 Hs2 t2. rewrite Hfirst.
      rewrite throttle_call_rate_limited
        with (t1 := t1 ++ [EvBrowse [CLASSIFIER]]) (code := (-32500)%Z) (msg := msg2).
      * rewrite (Hback msg2 Hs2), <- app_assoc. reflexivity.
      * unfold browse. now rewrite H2.
      * unfold is_rate_limit. now rewrite Hp2.
      * now rewrite (Hback msg2 Hs2).
  - unfold get_all_extensions, throttleRequest.
    apply (throttle_call_calls_at_most self (a := 1) (b := 2));
      [apply browse_calls_once |].
    apply (throttle_call_calls_at_most self (a := 1) (b := 1));
      apply browse_calls_once.
Qed.

End Listing.

(** ** The order of the sort *)

Lemma string_ltb_lt (s u : string) : (s <? u)%string = true <-> String_as_OT.lt s u.
Proof.
  rewrite <- String_as_OT.cmp_lt. unfold String.ltb, String_as_OT.cmp.
  destruct (s ?= u)%string; split; congruence.
Qed.

Lemma string_ltb_asym (s u : string) :
  (s <? u)%string = true -> (u <? s)%string = false.
Proof.
  unfold String.ltb. rewrite (String.compare_antisym u s).
  destruct (s ?= u)%string; cbn; congruence.
Qed.

Lemma string_not_ltb_trans (a b c : string) :
  (b <? a)%string = false -> (c <? b)%string = false -> (c <? a)%string = false.
Proof.
  intros Hba Hcb. destruct (c <? a)%string eqn:Hca; [|reflexivity].
  apply string_ltb_lt in Hca.
  destruct (String_as_OT.compare a b) as [Hlt|Heq|Hgt].
  - assert (H : (c <? b)%string = true)
      by (apply string_ltb_lt; eapply String_as_OT.lt_trans; eassumption).
    congruence.
  - unfold String_as_OT.eq in Heq. subst b.
    apply string_ltb_lt in Hca. congruence.
  - apply string_ltb_lt in Hgt. congruence.
Qed.

Lemma py_lt_flip (a b : pyval) : py_lt a b = Ok true -> key_le a b.
Proof.
  unfold key_le, py_lt.
  destruct a, b; cbn; try discriminate; intro H; injection H as H;
    f_equal; try (apply string_ltb_asym; exact H);
    repeat match goal with b : bool |- _ => destruct b end; lia.
Qed.

Lemma key_le_trans (a b c : pyval) : key_le a b -> key_le b c -> key_le a c.
Proof.
  unfold key_le, py_lt.
  destruct a, b, c; cbn; try discriminate; intros H1 H2;
    injection H1 as H1; injection H2 as H2; f_equal;
    try (eapply string_not_ltb_trans; eassumption);
    repeat match goal with b : bool |- _ => destruct b end; lia.
Qed.

Lemma ties_key_le (a b : pyval) : ties a b = true -> key_le a b /\ key_le b a.
Proof.
  unfold ties, key_le.
  destruct (py_lt a b) as [[|]|]; destruct (py_lt b a) as [[|]|];
    try discriminate; now split.
Qed.

(** ** [sorted] *)

Section SortingFacts.
Variable A : Type.
Variable key : A -> pyval.

Lemma insert_sorted_perm x l l' :
  insert_sorted key x l = Ok l' -> Permutation (x :: l) l'.
Proof.
  revert l'. induction l as [|y l IH]; cbn; intros l' H.
  - injection H as <-. reflexivity.
  - destruct (py_lt (key y) (key x)) as [[|]|]; cbn in H; try discriminate.
    + destruct (insert_sorted key x l) as [r|]; cbn in H; try discriminate.
      injection H as <-. rewrite perm_swap. constructor. now apply IH.
    + injection H as <-. reflexivity.
Qed.

Lemma insert_sorted_sorted x l l' :
  insert_sorted key x l = Ok l' ->
  StronglySorted (key_ordered key) l -> StronglySorted (key_ordered key) l'.
Proof.
  revert l'. induction l as [|y l IH]; cbn; intros l' H Hs.
  - injection H as <-. repeat constructor.
  - apply StronglySorted_inv in Hs as [Hs Hall].
    destruct (py_lt (key y) (key x)) as [[|]|] eqn:Hlt; cbn in H; try discriminate.
    + destruct (insert_sorted key x l) as [r|] eqn:Hr; cbn in H; try discriminate.
      injection H as <-. constructor; [now apply IH|].
      apply (Permutation_Forall (insert_sorted_perm x l Hr)).
      constructor; [now apply py_lt_flip | exact Hall].
    + injection H as <-. constructor.
      * now constructor.
      * constructor; [exact Hlt|].
        eapply Forall_impl; [|exact Hall].
        intros z Hz. unfold key_ordered in *. eapply key_le_trans; eassumption.
Qed.

(** An insertion never crosses an item with an equal key. *)
Lemma insert_sorted_stable x l l' c :
  insert_sorted key x l = Ok l' ->
  filter (fun p => ties (key p) c) l' = filter (fun p => ties (key p) c) (x :: l).
Proof.
  revert l'. induction l as [|y l IH]; cbn; intros l' H.
  - injection H as <-. reflexivity.
  - destruct (py_lt (key y) (key x)) as [[|]|] eqn:Hlt; cbn in H; try discriminate.
    + destruct (insert_sorted key x l) as [r|] eqn:Hr; cbn in H; try discriminate.
      injection H as <-. cbn. rewrite (IH r eq_refl). cbn.
      destruct (ties (key x) c) eqn:Tx; [|reflexivity].
      destruct (ties (key y) c) eqn:Ty; [|reflexivity].
      exfalso. apply ties_key_le in Tx as [Tx _]. apply ties_key_le in Ty as [_ Ty].
      pose proof (key_le_trans Tx Ty) as Hxy. unfold key_le in Hxy. congruence.
    + injection H as <-. reflexivity.
Qed.

Lemma sorted_spec l l' :
  sorted key l = Ok l' ->
  Permutation l l'
  /\ StronglySorted (key_ordered key) l'
  /\ forall c, filter (fun p => ties (key p) c) l'
               = filter (fun p => ties (key p) c) l.
Proof.
  revert l'. induction l as [|x l IH]; cbn; intros l' H.
  - injection H as <-. repeat split; constructor.
  - destruct (sorted key l) as [s|] eqn:Hs; cbn in H; try discriminate.
    destruct (IH s eq_refl) as (Hp & Hsorted & Hst).
    split; [|split].
    + rewrite <- (insert_sorted_perm x s H). now constructor.
    + eapply insert_sorted_sorted; eassumption.
    + intro c. rewrite (insert_sorted_stable x s c H). cbn. now rewrite Hst.
Qed.



End SortingFacts.

(** ** The last item with a property *)

Lemma last_such_None (A : Type) (p : A -> bool) (l : list A) :
  last_such p l = None <-> forall x, In x l -> p x = false.
Proof.
  induction l as [|y l IH]; cbn.
  - split; [intros _ x [] | reflexivity].
  - destruct (last_such p l) as [z|].
    + split; [discriminate|]. intro H.
      apply IH. intros x Hx. apply H. now right.
    + destruct (p y) eqn:Hy.
      * split; [discriminate|]. intro H. rewrite (H y) in Hy; [discriminate | now left].
      * split; [|reflexivity]. intros _ x [<-|Hx]; [exact Hy|].
        now apply (proj1 IH).
Qed.

Lemma last_such_Some (A : Type) (p : A -> bool) (l : list A) (x : A) :
  last_such p l = Some x -> In x l /\ p x = true.
Proof.
  induction l as [|y l IH]; cbn; [discriminate|].
  destruct (last_such p l) as [z|].
  - intro H. injection H as ->. destruct (IH eq_refl). split; [now right | assumption].
  - destruct (p y) eqn:Hy; [|discriminate].
    intro H. injection H as ->. split; [now left | assumption].
Qed.

Lemma last_such_ext_in (A : Type) (p q : A -> bool) (l : list A) :
  (forall x, In x l -> p x = q x) -> last_such p l = last_such q l.
Proof.
  induction l as [|y l IH]; cbn; intro H; [reflexivity|].
  rewrite IH by (intros x Hx; apply H; now right).
  rewrite (H y) by now left. reflexivity.
Qed.

(** ** Groups *)

Lemma groupby_nil (l : list (string * string)) : groupby l = [] -> l = [].
Proof.
  destruct l as [|e l]; [reflexivity|]. cbn.
  destruct (groupby l) as [|[k g] rest]; [discriminate|].
  destruct (fst e =? k); discriminate.
Qed.

Lemma last_item_cons (A : Type) (x : A) (l : list A) (y : A) :
  last_item l = Ok y -> last_item (x :: l) = Ok y.
Proof. destruct l; [discriminate | now cbn]. Qed.

(** The last candidate with a property of its name is the last item of the
    last group with that property. *)
Lemma groupby_last_such (p : string -> bool) (l : list (string * string)) :
  match last_such (fun g => p (fst g)) (groupby l) with
  | Some g =>
      exists c, last_item (snd g) = Ok c
                /\ last_such (fun c => p (fst c)) l = Some c
  | None => last_such (fun c => p (fst c)) l = None
  end.
Proof.
  induction l as [|e l IH]; [reflexivity|].
  cbn [groupby]. destruct (groupby l) as [|[k g] rest] eqn:Hg.
  - apply groupby_nil in Hg. subst l. cbn.
    destruct (p (fst e)); [|reflexivity]. now exists e.
  - cbn [last_such fst snd] in IH.
    destruct (fst e =? k) eqn:Hk.
    + apply String.eqb_eq in Hk. cbn [last_such fst snd].
      destruct (last_such (fun g0 => p (fst g0)) rest) as [y|].
      * destruct IH as (c & Hc1 & Hc2). exists c. split; [exact Hc1|]. now rewrite Hc2.
      * rewrite Hk. destruct (p k).
        -- destruct IH as (c & Hc1 & Hc2). exists c.
           split; [now apply last_item_cons | now rewrite Hc2].
        -- now rewrite IH.
    + cbn [last_such fst snd].
      destruct (last_such (fun g0 => p (fst g0)) rest) as [y|].
      * destruct IH as (c & Hc1 & Hc2). exists c. split; [exact Hc1|]. now rewrite Hc2.
      * destruct (p k).
        -- destruct IH as (c & Hc1 & Hc2). exists c. split; [exact Hc1|]. now rewrite Hc2.
        -- rewrite IH. destruct (p (fst e)); [|reflexivity]. now exists e.
Qed.

Lemma groupby_keys (f : string -> string) (l : list (string * string)) (k : string) :
  In k (map (fun g => f (fst g)) (groupby l))
  <-> In k (map (fun c => f (fst c)) l).
Proof.
  pose proof (groupby_last_such (fun n => f n =? k) l) as H.
  rewrite !in_map_iff. split.
  - intros (g & <- & Hin).
    destruct (last_such (fun g0 => f (fst g0) =? f (fst g)) (groupby l)) as [y|] eqn:Hy.
    + destruct H as (c & _ & Hc). apply last_such_Some in Hc as [Hc1 Hc2].
      apply String.eqb_eq in Hc2. now exists c.
    + rewrite last_such_None in Hy. specialize (Hy g Hin). cbn in Hy.
      now rewrite String.eqb_refl in Hy.
  - intros (c & <- & Hin).
    destruct (last_such (fun g0 => f (fst g0) =? f (fst c)) (groupby l)) as [y|] eqn:Hy.
    + apply last_such_Some in Hy as [Hy1 Hy2]. apply String.eqb_eq in Hy2. now exists y.
    + rewrite last_such_None in H. specialize (H c Hin). cbn in H.
      now rewrite String.eqb_refl in H.
Qed.

(** ** Keys of the accumulated dictionary *)

Lemma dict_set_keys (A : Type) (d : list (string * A)) k v :
  map fst (dict_set d k v) = add_key (map fst d) k.
Proof.
  unfold add_key. induction d as [|[k' v'] d IH]; cbn; [reflexivity|].
  destruct (k' =? k); cbn; [reflexivity|].
  rewrite IH. now destruct (existsb (fun k'0 => k'0 =? k) (map fst d)).
Qed.

Lemma add_key_In keys k k' : In k' (add_key keys k) <-> In k' keys \/ k' = k.
Proof.
  unfold add_key. destruct (existsb (fun x => x =? k) keys) eqn:E.
  - apply existsb_exists in E as (x & Hx & Hxk). apply String.eqb_eq in Hxk. subst x.
    split; [now left | intros [H| ->]; assumption].
  - rewrite in_app_iff. cbn. intuition.
Qed.

Lemma add_key_NoDup keys k : NoDup keys -> NoDup (add_key keys k).
Proof.
  intro H. unfold add_key. destruct (existsb (fun x => x =? k) keys) eqn:E; [exact H|].
  apply NoDup_app; [exact H | repeat constructor; intros [] |].
  intros x Hx [Hk|[]]. subst x.
  assert (Hex : existsb (fun y => y =? k) keys = true)
    by (apply existsb_exists; exists k; split; [exact Hx | apply String.eqb_refl]).
  congruence.
Qed.

Lemma lookup_In (A : Type) (d : list (string * A)) k v :
  lookup d k = Some v -> In (k, v) d.
Proof.
  induction d as [|[k' v'] d IH]; cbn; [discriminate|].
  destruct (k' =? k) eqn:E.
  - apply String.eqb_eq in E. intro H. injection H as ->. subst. now left.
  - intro H. right. now apply IH.
Qed.

Lemma In_lookup (A : Type) (d : list (string * A)) k v :
  NoDup (map fst d) -> In (k, v) d -> lookup d k = Some v.
Proof.
  induction d as [|[k' v'] d IH]; cbn; [intros _ []|].
  intros Hnd [H|H].
  - injection H as -> ->. now rewrite String.eqb_refl.
  - apply NoDup_cons_iff in Hnd as [Hnot Hnd].
    destruct (k' =? k) eqn:E; [|now apply IH].
    apply String.eqb_eq in E. subst k'. elim Hnot.
    apply in_map_iff. now exists (k, v).
Qed.

(** ** The whole loop *)

Section Catalog.
Variable get_semver_version : string -> string.
Variable env : Env.
Variable self : PyPILabExtensions.


Lemma for_each_group_step name group rest extensions t
      (k : list (string * pydict) -> M (list (string * pydict))) :
  bind (for_each_group get_semver_version env self ((name, group) :: rest)
          extensions) k t
  = match loop_body get_semver_version env self name group extensions t with
    | (t1, Ok extensions1) =>
        bind (for_each_group get_semver_version env self rest extensions1) k t1
    | (t1, Raise x) => (t1, Raise x)
    end.
Proof.
  cbn [for_each_group]. unfold bind.
  now destruct (loop_body get_semver_version env self name group extensions t)
    as [t1 [e1|x]].
Qed.

Lemma for_each_group_app gs1 gs2 extensions t :
  for_each_group get_semver_version env self (gs1 ++ gs2) extensions t
  = bind (for_each_group get_semver_version env self gs1 extensions)
         (for_each_group get_semver_version env self gs2) t.
Proof.
  revert extensions t. induction gs1 as [|[name group] gs1 IH]; intros extensions t.
  - reflexivity.
  - rewrite (for_each_group_step name group gs1 extensions t
               (for_each_group get_semver_version env self gs2)).
    destruct (loop_body get_semver_version env self name group extensions t)
      as [t1 [e1|x]] eqn:Hbody; cbn [app for_each_group]; unfold bind at 1;
      rewrite Hbody; [apply IH | reflexivity].
Qed.

Lemma for_each_group_cons_inv name group rest extensions t t' extensions' :
  for_each_group get_semver_version env self ((name, group) :: rest) extensions t
  = (t', Ok extensions') ->
  exists t1 extensions1,
    loop_body get_semver_version env self name group extensions t
    = (t1, Ok extensions1)
    /\ for_each_group get_semver_version env self rest extensions1 t1
       = (t', Ok extensions').
Proof.
  cbn [for_each_group]. unfold bind.
  destruct (loop_body get_semver_version env self name group extensions t)
    as [t1 [e1|x]]; [|discriminate].
  intro H. now exists t1, e1.
Qed.

(** What a loop that ran to its end has put in the dictionary. *)
Lemma for_each_group_spec gs : forall extensions t t' extensions',
  for_each_group get_semver_version env self gs extensions t
  = (t', Ok extensions') ->
  NoDup (map fst extensions) ->
  NoDup (map fst extensions')
  /\ (forall k, In k (map fst extensions')
                <-> In k (map fst extensions)
                    \/ In k (map (fun g => normalize_name (fst g)) gs))
  /\ (forall k,
         match last_such (group_has_key k) gs with
         | None => lookup extensions' k = lookup extensions k
         | Some g =>
             exists e v r,
               last_item (snd g) = Ok (e, v)
               /\ lookup extensions' k = Some r
               /\ dict_get r "name" = PStr k
               /\ dict_get r "latest_version" = PStr (get_semver_version v)
         end).
Proof.
  induction gs as [|[name group] rest IH]; intros extensions t t' extensions' H Hnd.
  - cbn in H. injection H as <- <-. cbn. split; [exact Hnd|]. split; [|reflexivity].
    intro k. tauto.
  - apply for_each_group_cons_inv in H as (t1 & extensions1 & Hbody & Hrest).
    apply loop_body_inv in Hbody
      as (e & v & data & s & h & d & b & g & Hlast & _ & _ & _ & Hext).
    assert (Hnd1 : NoDup (map fst extensions1)).
    { rewrite Hext, dict_set_keys. now apply add_key_NoDup. }
    destruct (IH _ _ _ _ Hrest Hnd1) as (Hnd' & Hkeys & Hlook).
    split; [exact Hnd'|]. split.
    + intro k. rewrite Hkeys, Hext, dict_set_keys, add_key_In. cbn. intuition.
    + intro k. specialize (Hlook k). cbn [last_such].
      destruct (last_such (group_has_key k) rest) as [y|]; [exact Hlook|].
      unfold group_has_key at 1. cbn [fst].
      destruct (normalize_name name =? k) eqn:Hk.
      * apply String.eqb_eq in Hk. subst k. exists e, v. eexists.
        split; [exact Hlast|]. split; [|split].
        -- rewrite Hlook, Hext. apply lookup_dict_set_same.
        -- reflexivity.
        -- reflexivity.
      * rewrite Hlook, Hext. apply lookup_dict_set_other.
        now apply String.eqb_neq.
Qed.

Lemma list_packages_inv t t' catalog :
  list_packages get_semver_version env self t = (t', Ok catalog) ->
  exists t0 matches extensions,
    get_all_extensions env self t = (t0, Ok matches)
    /\ for_each_group get_semver_version env self (groupby matches) [] t0
       = (t', Ok extensions)
    /\ sorted monthly_download_key (values extensions) = Ok catalog.
Proof.
  unfold list_packages, bind.
  destruct (get_all_extensions env self t) as [t0 [matches|x]] eqn:Hl;
    [|discriminate].
  destruct (for_each_group get_semver_version env self (groupby matches) [] t0)
    as [t1 [extensions|x]] eqn:Hg; [|discriminate].
  unfold lift. intro H. injection H as <- H. now exists t0, matches, extensions.
Qed.

(** C6: when the listing has been obtained and the loop has dealt with
    the packages before some package, a failure of the metadata fetch for
    that package ends [list_packages] with that very exception, right
    after the failed request: no catalogue is returned, whatever the
    packages that come after. *)
Theorem metadata_failure_aborts
        t t0 matches before name group after t1 extensions e latest_version
        t2 err :
  get_all_extensions env self t = (t0, Ok matches) ->
  groupby matches = before ++ (name, group) :: after ->
  for_each_group get_semver_version env self before [] t0 = (t1, Ok extensions) ->
  last_item group = Ok (e, latest_version) ->
  fetch_package_metadata env name latest_version (base_url self) t1
  = (t2, Raise err) ->
  list_packages get_semver_version env self t = (t2, Raise err)
  /\ forall catalog t', list_packages get_semver_version env self t <> (t', Ok catalog).
Proof.
  intros Hlist Hgroups Hbefore Hlast Hfetch.
  assert (H : list_packages get_semver_version env self t = (t2, Raise err)).
  { unfold list_packages, bind at 1. rewrite Hlist.
    unfold bind at 1. rewrite Hgroups, for_each_group_app.
    unfold bind at 1. rewrite Hbefore.
    cbn [for_each_group]. unfold bind at 1.
    unfold loop_body, bind at 1. unfold lift at 1. rewrite Hlast.
    unfold bind at 1. rewrite Hfetch. reflexivity. }
  split; [exact H|]. intros catalog t'. rewrite H. discriminate.
Qed.


End Catalog.

(** ** One record per key *)

Section Keys.
Variable get_semver_version : string -> string.
Variable env : Env.
Variable self : PyPILabExtensions.

(** The records that a finished loop has filed, key by key. *)
Lemma filed_record matches t0 t' extensions k r :
  for_each_group get_semver_version env self (groupby matches) [] t0
  = (t', Ok extensions) ->
  In (k, r) extensions ->
  dict_get r "name" = PStr k
  /\ exists c,
      last_such (has_key k) matches = Some c
      /\ dict_get r "latest_version" = PStr (get_semver_version (snd c)).
Proof.
  intros Hg Hin.
  destruct (for_each_group_spec _ _ _ _ _ _ Hg (NoDup_nil _)) as (Hnd & _ & Hlook).
  specialize (Hlook k). rewrite (@In_lookup _ _ _ _ Hnd Hin) in Hlook.
  pose proof (groupby_last_such (fun n => normalize_name n =? k) matches) as Hlast.
  cbv beta in Hlast.
  change (fun g : string * list (string * string) => normalize_name (fst g) =? k)
    with (group_has_key k) in Hlast.
  change (fun c : string * string => normalize_name (fst c) =? k)
    with (has_key k) in Hlast.
  destruct (last_such (group_has_key k) (groupby matches)) as [g|];
    [|discriminate].
  destruct Hlook as (e & v & r' & Hitem & Hr & Hname & Hversion).
  injection Hr as <-.
  destruct Hlast as (c & Hc & Hlastc). rewrite Hitem in Hc. injection Hc as <-.
  split; [exact Hname|]. now exists (e, v).
Qed.

(** C9 (as the code has it): the catalogue has exactly one record for
    each distinct normalised name of the listing, and no other record.
    The version of a record is the version of the last candidate of the
    listing whose name normalises to the key of the record; for a raw
    name that shares its normalised name with no other raw name of the
    listing, that is the last candidate with that raw name. *)
Theorem catalog_one_record_per_key t t' catalog :
  list_packages get_semver_version env self t = (t', Ok catalog) ->
  exists t0 matches,
    get_all_extensions env self t = (t0, Ok matches)
    /\ Permutation (map (fun r => dict_get r "name") catalog)
                   (map PStr (catalog_keys matches))
    /\ NoDup (map (fun r => dict_get r "name") catalog)
    /\ length catalog = length (catalog_keys matches)
    /\ (forall r,
           In r catalog ->
           exists key c,
             dict_get r "name" = PStr key
             /\ last_such (has_key key) matches = Some c
             /\ dict_get r "latest_version"
                = PStr (get_semver_version (snd c)))
    /\ (forall name,
           (forall c, In c matches ->
                      normalize_name (fst c) = normalize_name name ->
                      fst c = name) ->
           forall r,
             In r catalog ->
             dict_get r "name" = PStr (normalize_name name) ->
             exists c,
               last_such (has_name name) matches = Some c
               /\ dict_get r "latest_version"
                  = PStr (get_semver_version (snd c))).
Proof.
  intro H.
  apply list_packages_inv in H as (t0 & matches & extensions & Hl & Hg & Hs).
  exists t0, matches. split; [exact Hl|].
  destruct (sorted_spec _ _ Hs) as (Hperm & _ & _).
  destruct (for_each_group_spec _ _ _ _ _ _ Hg (NoDup_nil _)) as (Hnd & Hkeys & _).
  assert (Hnames : map (fun r => dict_get r "name") (values extensions)
                   = map PStr (map fst extensions)).
  { unfold values. rewrite !map_map. apply map_ext_in. intros [k r] Hin.
    now destruct (@filed_record _ _ _ _ _ _ Hg Hin). }
  assert (Hkperm : Permutation (map fst extensions) (catalog_keys matches)).
  { apply NoDup_Permutation; [exact Hnd | apply NoDup_nodup |].
    intro k. unfold catalog_keys. rewrite nodup_In, Hkeys, (groupby_keys normalize_name).
    cbn. tauto. }
  assert (Hcat : Permutation (map (fun r => dict_get r "name") catalog)
                             (map PStr (catalog_keys matches))).
  { rewrite <- Hperm, Hnames. now apply Permutation_map. }
  assert (Hrec : forall r,
             In r catalog ->
             exists key c,
               dict_get r "name" = PStr key
               /\ last_such (has_key key) matches = Some c
               /\ dict_get r "latest_version" = PStr (get_semver_version (snd c))).
  { intros r Hin. apply (Permutation_in _ (Permutation_sym Hperm)) in Hin.
    unfold values in Hin. apply in_map_iff in Hin as ([k r'] & Hr & Hin).
    cbn in Hr. subst r'.
    destruct (@filed_record _ _ _ _ _ _ Hg Hin) as (Hname & c & Hc & Hv).
    now exists k, c. }
  split; [exact Hcat|]. split; [|split; [|split; [exact Hrec|]]].
  - apply (Permutation_NoDup (Permutation_sym Hcat)).
    apply Finite.Injective_map_NoDup; [|apply NoDup_nodup].
    intros x y Hxy. now injection Hxy.
  - apply Permutation_length in Hcat. now rewrite !length_map in Hcat.
  - intros name Halone r Hin Hname.
    destruct (Hrec r Hin) as (key & c & Hkey & Hc & Hv).
    rewrite Hname in Hkey. injection Hkey as <-.
    exists c. split; [|exact Hv]. rewrite <- Hc.
    apply last_such_ext_in. intros x Hx. unfold has_name, has_key.
    destruct (fst x =? name) eqn:E.
    + apply String.eqb_eq in E. rewrite E. symmetry. apply String.eqb_refl.
    + destruct (normalize_name (fst x) =? normalize_name name) eqn:E'; [|reflexivity].
      apply String.eqb_eq in E'. apply (Halone x Hx) in E'.
      apply String.eqb_neq in E. contradiction.
Qed.

End Keys.

(** * Concrete runs *)

(** ** Urls *)

(** C1, the claim as stated fails: with [home_page = "HP"] and a
    [Homepage] project url ["H"], the record shows ["HP"], not ["H"]. *)
Lemma project_urls_homepage_first_counterexample :
  exists t r,
    list_packages plain_version env_urls default_config [] = (t, Ok [r])
    /\ dict_get r "homepage_url" = PStr "HP"
    /\ dict_get r "repository_url" = PStr "S"
    /\ dict_get r "homepage_url" <> PStr "H".
Proof.
  do 2 eexists. split; [vm_compute; reflexivity|].
  split; [reflexivity|]. split; [reflexivity|]. discriminate.
Qed.

Lemma homepage_url_prefers_home_page_witness :
  (exists s d b g,
      display_urls [("home_page", PStr "HP");
                    ("project_urls", PDict [("Homepage", PStr "H")])]
      = Ok (s, PStr "HP", d, b, g))
  /\ (exists t' extensions' r,
         loop_body plain_version env_urls default_config "pkg" [("pkg", "1.0")] []
                   [EvBrowse [CLASSIFIER]]
         = (t', Ok extensions')
         /\ lookup extensions' (normalize_name "pkg") = Some r
         /\ dict_get r "homepage_url" = PStr "HP"
         /\ dict_get r "repository_url" = PStr "S").
Proof.
  split.
  - apply (proj1 (homepage_url_prefers_home_page plain_version env_urls default_config)
             [("home_page", PStr "HP");
              ("project_urls", PDict [("Homepage", PStr "H")])]
             [("Homepage", PStr "H")]).
    reflexivity.
  - eapply (proj2 (homepage_url_prefers_home_page plain_version env_urls default_config));
      reflexivity.
Defined.

(** C4, the claim as stated fails: all five candidates are empty and yet
    the [homepage_url] of the record is not, it is the bug tracker url. *)
Lemma best_guess_five_candidates_counterexample :
  exists t r data,
    list_packages plain_version env_bugtracker default_config [] = (t, Ok [r])
    /\ snd (fetch_package_metadata env_bugtracker "pkg" "1.0"
              (base_url default_config) [EvBrowse [CLASSIFIER]])
       = Ok data
    /\ display_urls data = Ok (PNone, PNone, PNone, PStr "B", PStr "B")
    /\ find truthy [PNone; dict_get data "project_url"; dict_get data "package_url";
                    PNone; PNone] = None
    /\ dict_get r "homepage_url" = PStr "B".
Proof.
  do 3 eexists. split; [vm_compute; reflexivity|].
  split; [reflexivity|]. repeat split.
Qed.

Lemma best_guess_home_url_first_of_six_witness :
  PStr "B"
  = match find truthy [PNone; PNone; PNone; PNone; PNone; PStr "B"] with
    | Some v => v
    | None => PStr "B"
    end
  /\ PStr "H"
     = match find truthy [PNone; PStr "H"; PStr "P"; PNone; PStr "S"; PNone] with
       | Some v => v
       | None => PNone
       end.
Proof.
  split.
  - apply (best_guess_home_url_first_of_six plain_version
             [("bugtrack_url", PStr "B")] (s := PNone) (h := PNone) (d := PNone)).
    reflexivity.
  - apply (best_guess_home_url_first_of_six plain_version
             [("project_url", PStr "H"); ("package_url", PStr "P");
              ("project_urls", PDict [("Source Code", PStr "S")])]
             (s := PStr "S") (h := PNone) (d := PNone) (b := PNone)).
    reflexivity.
Defined.

Lemma null_project_urls_is_empty_map_witness :
  exists t1 data best,
    fetch_package_metadata env_null_urls "pkg" "1.0" (base_url default_config)
      [EvBrowse [CLASSIFIER]]
    = (t1, Ok data)
    /\ display_urls data = Ok (PNone, PStr "HP", PNone, PNone, best)
    /\ display_urls data = display_urls (("project_urls", PDict []) :: data)
    /\ exists t' monthly_download,
        loop_body plain_version env_null_urls default_config "pkg" [("pkg", "1.0")] []
                  [EvBrowse [CLASSIFIER]]
        = (t',
           Ok (dict_set [] (normalize_name "pkg")
                 (display_record plain_version (normalize_name "pkg") data "1.0"
                    PNone PNone PNone best monthly_download))).
Proof.
  apply (null_project_urls_is_empty_map plain_version env_null_urls default_config
           "pkg" [("pkg", "1.0")] [] [EvBrowse [CLASSIFIER]]
           (e := "pkg") (latest_version := "1.0")
           (top := [("info", PDict [("home_page", PStr "HP"); ("project_urls", PNone)])])
           (info := [("home_page", PStr "HP"); ("project_urls", PNone)])).
  - reflexivity.
  - reflexivity.
  - reflexivity.
  - right. reflexivity.
Defined.

(** ** Statistics *)

Lemma monthly_download_defaults_to_zero_witness :
  stats_fetch_fails
    (http_fetch env_null_urls
       [EvBrowse [CLASSIFIER]; EvFetch "https://pypi.org/pypi/pkg/1.0/json"]
       (PYPISTATS_ENDPOINT "pkg"))
  /\ exists t' extensions' r,
      loop_body plain_version env_null_urls default_config "pkg" [("pkg", "1.0")] []
                [EvBrowse [CLASSIFIER]]
      = (t', Ok extensions')
      /\ lookup extensions' (normalize_name "pkg") = Some r
      /\ dict_get r "monthly_download" = PInt 0.
Proof.
  split; [exact fails_malformed_json|].
  eapply (proj2 (monthly_download_defaults_to_zero plain_version env_null_urls
                   default_config)).
  - reflexivity.
  - reflexivity.
  - reflexivity.
  - exact fails_malformed_json.
Defined.

(** ** Throttling *)

(** C2, the claim as stated fails: when the retry meets the rate-limit
    fault again, the fault does not propagate yet; the wrapper sleeps once
    more and calls a third time. *)
Lemma single_retry_counterexample :
  get_all_extensions env_rate_limited throttle_2 []
  = ([EvBrowse [CLASSIFIER]; EvSleep (1001 # 100);
      EvBrowse [CLASSIFIER]; EvSleep (1001 # 100);
      EvBrowse [CLASSIFIER]],
     Raise too_many_requests)
  /\ attempts (fst (get_all_extensions env_rate_limited throttle_2 [])) = 3
  /\ get_all_extensions env_rate_limited throttle_2 []
     <> ([EvBrowse [CLASSIFIER]; EvSleep (1001 # 100); EvBrowse [CLASSIFIER]],
         Raise too_many_requests).
Proof.
  split; [reflexivity|]. split; [reflexivity|]. discriminate.
Qed.

Lemma throttle_retries_at_most_twice_witness :
  get_all_extensions env_third_time_lucky throttle_2 []
  = ([EvBrowse [CLASSIFIER]; EvSleep (1001 # 100);
      EvBrowse [CLASSIFIER]; EvSleep (1001 # 100);
      EvBrowse [CLASSIFIER]],
     Ok [("pkg", "1.0")]).
Proof.
  exact (proj2 (proj1 (throttle_retries_at_most_twice env_third_time_lucky throttle_2)
                  []
                  too_many_requests_message
                  eq_refl eq_refl eq_refl eq_refl)
               too_many_requests_message
               eq_refl eq_refl eq_refl).
Defined.

(** C3, the code at a fault that is not the rate-limit one: the wrapper
    catches the fault and, instead of raising it again, ends in an
    [UnboundLocalError] for [data], after one call and no sleep; so does
    [list_packages]. *)
Theorem other_fault_is_lost :
  rpc_browse env_other_fault [] [CLASSIFIER] = Raise method_not_found
  /\ get_all_extensions env_other_fault default_config []
     = ([EvBrowse [CLASSIFIER]], Raise (UnboundLocalError "data"))
  /\ list_packages plain_version env_other_fault default_config []
     = ([EvBrowse [CLASSIFIER]], Raise (UnboundLocalError "data")).
Proof. repeat split. Qed.

(** ** The catalogue *)

Lemma metadata_failure_aborts_witness :
  list_packages plain_version env_broken_metadata default_config []
  = ([EvBrowse [CLASSIFIER];
      EvFetch "https://pypi.org/pypi/good/1.0/json";
      EvFetch "https://pypistats.org/api/packages/good/recent?period=month";
      EvFetch "https://pypi.org/pypi/bad/1.0/json"],
     Raise (OtherError "HTTP 404: Not Found"))
  /\ forall catalog t',
      list_packages plain_version env_broken_metadata default_config []
      <> (t', Ok catalog).
Proof.
  eapply (@metadata_failure_aborts plain_version env_broken_metadata default_config
            [] _ _ [("good", [("good", "1.0")])] "bad" [("bad", "1.0")] []).
  - reflexivity.
  - reflexivity.
  - reflexivity.
  - reflexivity.
  - reflexivity.
Defined.


(** C9, the claim as stated fails: the last candidate with the raw name
    [a_b] has version [1.0], but the record filed for that name has the
    version of the other raw name with the same normalised name. *)
Lemma last_version_of_raw_name_counterexample :
  exists t r,
    list_packages plain_version env_collision default_config [] = (t, Ok [r])
    /\ dict_get r "name" = PStr (normalize_name "a_b")
    /\ last_such (has_name "a_b") [("a_b", "1.0"); ("a-b", "2.0")]
       = Some ("a_b", "1.0")
    /\ dict_get r "latest_version" = PStr (plain_version "2.0")
    /\ dict_get r "latest_version" <> PStr (plain_version "1.0").
Proof.
  do 2 eexists. split; [vm_compute; reflexivity|].
  repeat (split; [reflexivity|]). discriminate.
Qed.

Lemma catalog_one_record_per_key_witness :
  exists catalog,
    map (fun r => (dict_get r "name", dict_get r "latest_version")) catalog
    = [(PStr "b", PStr "0.1"); (PStr "c", PStr "3.0"); (PStr "a", PStr "1.1")]
    /\ NoDup (map (fun r => dict_get r "name") catalog)
    /\ length catalog = 3.
Proof.
  destruct (catalog_one_record_per_key plain_version env_three default_config
              [] eq_refl)
    as (t0 & matches & Hl & _ & Hnd & Hlen & _).
  injection Hl as _ <-.
  eexists. split; [|split; [exact Hnd | exact Hlen]]. reflexivity.
Defined.

(** A count that is present but is not a number is not a failure of the
    statistics request: it is stored as it is, and the sort then raises
    when it compares it with another count. *)
Remark null_count_reaches_the_sort :
  snd (get_monthly_download env_null_count "b" []) = Ok PNone
  /\ snd (list_packages plain_version env_null_count default_config [])
     = Raise TypeError.
Proof. split; reflexivity. Qed.

(** * Further properties *)

(** ** The metadata of a package *)

Lemma lookup_map_keys (f : string -> pyval) (ks : list string) (k : string) :
  lookup (map (fun k => (k, f k)) ks) k
  = if existsb (fun k' => k' =? k) ks then Some (f k) else None.
Proof.
  induction ks as [|k0 ks IH]; cbn; [reflexivity|].
  destruct (k0 =? k) eqn:E; cbn; [|exact IH].
  apply String.eqb_eq in E. now subst.
Qed.

Section Metadata.
Variable env : Env.

(** X1: the metadata that [_fetch_package_metadata] returns has exactly
    the nine keys of the list, in that order; the value of each is the one
    of the [info] object of the response, [None] when [info] lacks it, and
    nothing else of [info] is kept. *)
Theorem metadata_keeps_the_nine_keys name latest_version base t t1 data :
  fetch_package_metadata env name latest_version base t = (t1, Ok data) ->
  map fst data = METADATA_KEYS
  /\ exists top info,
      http_fetch env t (metadata_url base name latest_version)
      = Ok {| json_body := Some (PDict top) |}
      /\ dict_get top "info" = PDict info
      /\ (forall k, In k METADATA_KEYS -> dict_get data k = dict_get info k)
      /\ (forall k, ~ In k METADATA_KEYS -> dict_get data k = PNone).
Proof.
  intro H. apply fetch_package_metadata_ok in H as [_ H].
  unfold metadata_of in H.
  destruct (http_fetch env t _) as [[[v|]]|e]; unfold json_body in H;
    try discriminate.
  destruct v as [| | | |top]; try discriminate.
  destruct (dict_get top "info") as [| | | |info] eqn:Hinfo; try discriminate.
  injection H as <-. split; [reflexivity|].
  exists top, info. split; [reflexivity|]. split; [exact Hinfo|].
  split; intros k Hk; unfold dict_get at 1, dict_get_default;
    pose proof (lookup_map_keys (dict_get info) METADATA_KEYS k) as L;
    cbn [map METADATA_KEYS] in L |- *; rewrite L; clear L;
    destruct (existsb (fun k' => k' =? k) _) eqn:E; try reflexivity.
  - assert (E' : existsb (fun k' => k' =? k) METADATA_KEYS = true).
    { apply existsb_exists. exists k. split; [exact Hk | apply String.eqb_refl]. }
    unfold METADATA_KEYS in *. congruence.
  - apply existsb_exists in E as (k' & Hin & Hk').
    apply String.eqb_eq in Hk'. subst k'. contradiction.
Qed.


(** X3: when the statistics response is an object whose [data] is an
    object with a [last_month], [_get_monthly_download] returns that value
    as it is, after one request to the statistics url of the name. *)
Theorem monthly_download_reads_last_month name t top data count :
  http_fetch env t (PYPISTATS_ENDPOINT name)
  = Ok {| json_body := Some (PDict top) |} ->
  lookup top "data" = Some (PDict data) ->
  lookup data "last_month" = Some count ->
  get_monthly_download env name t
  = (t ++ [EvFetch (PYPISTATS_ENDPOINT name)], Ok count).
Proof.
  intros Hf Hd Hl. rewrite get_monthly_download_eq, Hf. cbn.
  unfold dict_get_default. now rewrite Hd, Hl.
Qed.

End Metadata.

(** ** The records *)

Lemma dict_set_values (A : Type) (P : A -> Prop) (d : list (string * A)) k v :
  Forall P (values d) -> P v -> Forall P (values (dict_set d k v)).
Proof.
  unfold values. intros Hd Hv. induction d as [|[k' v'] d IH]; cbn.
  - now repeat constructor.
  - cbn in Hd. apply Forall_cons_iff in Hd as [Hv' Hd].
    destruct (k' =? k); cbn; constructor; auto.
Qed.

Section Records.
Variable get_semver_version : string -> string.
Variable env : Env.
Variable self : PyPILabExtensions.

(** Whatever holds of every record that the loop can build, and of the
    records it starts with, holds of the records it ends with. *)
Lemma for_each_group_values (P : pydict -> Prop) :
  (forall n data v s d b g m,
      P (display_record get_semver_version n data v s d b g m)) ->
  forall gs extensions t t' extensions',
    for_each_group get_semver_version env self gs extensions t
    = (t', Ok extensions') ->
    Forall P (values extensions) -> Forall P (values extensions').
Proof.
  intros HP gs. induction gs as [|[name group] rest IH];
    intros extensions t t' extensions' H Hall.
  - cbn in H. now injection H as <- <-.
  - apply for_each_group_cons_inv in H as (t1 & extensions1 & Hbody & Hrest).
    apply loop_body_inv in Hbody
      as (e & v & data & s & h & d & b & g & _ & _ & _ & _ & Hext).
    apply (IH _ _ _ _ Hrest). rewrite Hext. now apply dict_set_values.
Qed.

(** X4: the url lookups need [project_urls] to be empty ([null], absent,
    [{}], an empty string, ...) or an object.  With any other value, a
    non-empty string say, the first lookup raises [AttributeError], and the
    turn of the loop ends there, before the statistics request. *)
Theorem project_urls_must_be_a_map :
  (forall data,
      truthy (dict_get data "project_urls") = false
      \/ (exists urls, dict_get data "project_urls" = PDict urls) ->
      exists u, display_urls data = Ok u)
  /\ (forall data,
         truthy (dict_get data "project_urls") = true ->
         (forall urls, dict_get data "project_urls" <> PDict urls) ->
         display_urls data = Raise AttributeError)
  /\ (forall name group extensions t e latest_version t1 data,
         last_item group = Ok (e, latest_version) ->
         fetch_package_metadata env name latest_version (base_url self) t
         = (t1, Ok data) ->
         truthy (dict_get data "project_urls") = true ->
         (forall urls, dict_get data "project_urls" <> PDict urls) ->
         loop_body get_semver_version env self name group extensions t
         = (t1, Raise AttributeError)).
Proof.
  assert (Hraise : forall data,
             truthy (dict_get data "project_urls") = true ->
             (forall urls, dict_get data "project_urls" <> PDict urls) ->
             display_urls data = Raise AttributeError).
  { intros data Ht Hnd. unfold display_urls, py_or. rewrite Ht.
    destruct (dict_get data "project_urls"); try reflexivity. now elim (Hnd d). }
  split; [|split; [exact Hraise|]].
  - intros data [Hf | [urls Hd]].
    + eexists. apply (display_urls_dict data (urls := [])).
      unfold py_or. now rewrite Hf.
    + eexists. apply (display_urls_dict data (urls := urls)).
      unfold py_or. rewrite Hd. now destruct urls.
  - intros name group extensions t e latest_version t1 data Hlast Hfetch Ht Hnd.
    unfold loop_body, bind at 1. unfold lift at 1. rewrite Hlast.
    unfold bind at 1. rewrite Hfetch.
    unfold bind at 1. unfold lift at 1. now rewrite (Hraise data Ht Hnd).
Qed.

(** X5: the record that a turn of the loop files for a package, field by
    field.  The documentation and bug tracker urls are the metadata
    [docs_url] and [bugtrack_url] when non-empty, and the [Documentation]
    and [Bug Tracker] project urls otherwise; the repository url is the
    [Source Code] project url and nothing else; the package manager url is
    [package_url]; the description is [summary]; the version is the
    converted version of the last candidate of the group; the download
    count is what [_get_monthly_download] returns for the raw name. *)
Theorem record_of_a_turn
        name group extensions t e latest_version t1 data urls :
  last_item group = Ok (e, latest_version) ->
  fetch_package_metadata env name latest_version (base_url self) t
  = (t1, Ok data) ->
  py_or (dict_get data "project_urls") (PDict []) = PDict urls ->
  exists t' count r,
    get_monthly_download env name t1 = (t', Ok count)
    /\ loop_body get_semver_version env self name group extensions t
       = (t', Ok (dict_set extensions (normalize_name name) r))
    /\ dict_get r "name" = PStr (normalize_name name)
    /\ dict_get r "description" = dict_get data "summary"
    /\ dict_get r "author" = dict_get data "author"
    /\ dict_get r "license" = dict_get data "license"
    /\ dict_get r "latest_version" = PStr (get_semver_version latest_version)
    /\ dict_get r "pkg_type" = PStr "prebuilt"
    /\ dict_get r "bug_tracker_url"
       = (if truthy (dict_get data "bugtrack_url")
          then dict_get data "bugtrack_url"
          else dict_get urls "Bug Tracker")
    /\ dict_get r "documentation_url"
       = (if truthy (dict_get data "docs_url")
          then dict_get data "docs_url"
          else dict_get urls "Documentation")
    /\ dict_get r "package_manager_url" = dict_get data "package_url"
    /\ dict_get r "repository_url" = dict_get urls "Source Code"
    /\ dict_get r "monthly_download" = count.
Proof.
  intros Hlast Hfetch Hurls.
  apply fetch_package_metadata_ok in Hfetch as [-> Hmeta].
  pose proof (loop_body_ok get_semver_version env self name group extensions
                t Hlast Hmeta (display_urls_dict data Hurls)) as Hbody.
  cbv zeta in Hbody. rewrite Hbody.
  do 3 eexists. split; [apply get_monthly_download_eq|].
  split; [reflexivity|]. repeat split.
Qed.

(** X6: every record of a catalogue has exactly the twelve keys of the
    [dict(...)] call, in that order, a string for [name] and for
    [latest_version], and [prebuilt] for [pkg_type]; its sort key is its
    [monthly_download], never the default of the [key] function. *)
Theorem catalog_records_have_twelve_keys t t' catalog r :
  list_packages get_semver_version env self t = (t', Ok catalog) ->
  In r catalog ->
  map fst r = RECORD_KEYS
  /\ (exists name, dict_get r "name" = PStr name)
  /\ (exists version, dict_get r "latest_version" = PStr version)
  /\ dict_get r "pkg_type" = PStr "prebuilt"
  /\ exists count,
      lookup r "monthly_download" = Some count
      /\ monthly_download_key r = count.
Proof.
  intros H Hin.
  apply list_packages_inv in H as (t0 & matches & extensions & _ & Hg & Hs).
  destruct (sorted_spec _ _ Hs) as (Hperm & _ & _).
  apply (Permutation_in _ (Permutation_sym Hperm)) in Hin.
  revert r Hin. apply Forall_forall.
  apply (for_each_group_values
           (P := fun r : pydict => map fst r = RECORD_KEYS
                     /\ (exists name, dict_get r "name" = PStr name)
                     /\ (exists version, dict_get r "latest_version" = PStr version)
                     /\ dict_get r "pkg_type" = PStr "prebuilt"
                     /\ exists count,
                         lookup r "monthly_download" = Some count
                         /\ monthly_download_key r = count))
    with (gs := groupby matches) (extensions := []) (t := t0) (t' := t');
    [|exact Hg|constructor].
  intros n data v s d b g m. split; [reflexivity|].
  split; [now eexists|]. split; [now eexists|]. split; [reflexivity|].
  now exists m.
Qed.

End Records.

(** ** The groups of the listing *)

(** X7: the groups of the loop are the runs of consecutive candidates with
    the same name.  Put end to end they are the listing; every group is
    non-empty, so that [list(group)[-1]] never raises, and all its
    candidates, the last one too, have the name of the group; two
    neighbouring groups have different names. *)
Theorem groups_are_the_runs_of_the_listing (l : list (string * string)) :
  concat (map snd (groupby l)) = l
  /\ Forall (fun g => Forall (fun c => fst c = fst g) (snd g)
                      /\ exists c, last_item (snd g) = Ok c /\ fst c = fst g)
            (groupby l)
  /\ no_equal_neighbours (map fst (groupby l)).
Proof.
  induction l as [|e l (Hcat & Hall & Hnb)]; [now repeat split|].
  cbn [groupby]. destruct (groupby l) as [|[k g] rest] eqn:Hg.
  - apply groupby_nil in Hg. subst l. cbn. split; [reflexivity|].
    split; [|exact I]. repeat constructor. now exists e.
  - cbn [map snd concat] in Hcat. apply Forall_cons_iff in Hall as [[Hk Hlast] Hall].
    cbn [fst snd] in Hk, Hlast.
    destruct (fst e =? k) eqn:E.
    + apply String.eqb_eq in E. cbn [map snd fst concat]. split; [|split].
      * cbn. now rewrite <- Hcat.
      * constructor; [|exact Hall]. cbn [fst snd]. split.
        -- constructor; assumption.
        -- destruct Hlast as (c & Hc & Hfc). exists c.
           split; [now apply last_item_cons | exact Hfc].
      * exact Hnb.
    + apply String.eqb_neq in E. cbn [map snd fst concat]. split; [|split].
      * cbn. now rewrite <- Hcat.
      * constructor; [|constructor; [now split | exact Hall]].
        cbn [fst snd]. split; [now repeat constructor | now exists e].
      * cbn [map fst] in Hnb. cbn. split; [exact E | exact Hnb].
Qed.

(** ** The requests of a run *)

(** Every group has a last item. *)
Lemma groupby_last_item (l : list (string * string)) :
  Forall (fun g => exists c, last_item (snd g) = Ok c) (groupby l).
Proof.
  induction l as [|e l IH]; [constructor|].
  cbn [groupby]. destruct (groupby l) as [|[k g] rest].
  - repeat constructor. now exists e.
  - apply Forall_cons_iff in IH as [[c Hc] IH]. cbn [snd] in Hc.
    destruct (fst e =? k).
    + constructor; [|exact IH]. exists c. now apply last_item_cons.
    + constructor; [now exists e|]. constructor; [now exists c | exact IH].
Qed.






Section Runs.
Variable get_semver_version : string -> string.
Variable env : Env.
Variable self : PyPILabExtensions.

Lemma for_each_group_trace gs : forall extensions t t' extensions',
  for_each_group get_semver_version env self gs extensions t
  = (t', Ok extensions') ->
  t' = t ++ flat_map (group_requests (base_url self)) gs
  /\ map fst extensions'
     = fold_left add_key (map (fun g => normalize_name (fst g)) gs)
                 (map fst extensions).
Proof.
  induction gs as [|[name group] rest IH]; intros extensions t t' extensions' H.
  - cbn in H. injection H as <- <-. cbn. now rewrite app_nil_r.
  - apply for_each_group_cons_inv in H as (t1 & extensions1 & Hbody & Hrest).
    apply loop_body_inv in Hbody
      as (e & v & data & s & h & d & b & g & Hlast & _ & _ & Ht1 & Hext).
    cbv zeta in Ht1, Hext.
    destruct (IH _ _ _ _ Hrest) as [-> Hkeys]. split.
    + assert (Hreq : group_requests (base_url self) (name, group)
                     = [EvFetch (metadata_url (base_url self) name v);
                        EvFetch (PYPISTATS_ENDPOINT name)])
        by (unfold group_requests; cbn [fst snd]; now rewrite Hlast).
      cbn [flat_map]. rewrite Hreq, Ht1, <- !app_assoc. reflexivity.
    + rewrite Hkeys, Hext, dict_set_keys. reflexivity.
Qed.

(** X8: a run of [list_packages] that returns a catalogue has made, after
    the listing, exactly two requests for each group of the listing, in
    the order of the listing: the metadata of the raw name at the last
    version of the group, then the statistics of the raw name; nothing
    else.  On an empty listing it returns the empty catalogue without any
    request. *)
Theorem requests_of_a_run :
  (forall t t' catalog,
      list_packages get_semver_version env self t = (t', Ok catalog) ->
      exists t0 matches,
        get_all_extensions env self t = (t0, Ok matches)
        /\ t' = t0 ++ flat_map (group_requests (base_url self)) (groupby matches)
        /\ length (flat_map (group_requests (base_url self)) (groupby matches))
           = 2 * length (groupby matches))
  /\ (forall t t0,
         get_all_extensions env self t = (t0, Ok []) ->
         list_packages get_semver_version env self t = (t0, Ok [])).
Proof.
  split.
  - intros t t' catalog H.
    apply list_packages_inv in H as (t0 & matches & extensions & Hl & Hg & _).
    exists t0, matches. split; [exact Hl|].
    split; [now apply for_each_group_trace in Hg|].
    pose proof (groupby_last_item matches) as Hall.
    clear Hg. induction Hall as [|g gs ([c v] & Hc) _ IH]; [reflexivity|].
    cbn [flat_map]. rewrite length_app, IH. unfold group_requests.
    rewrite Hc. cbn [length]. lia.
  - intros t t0 H. unfold list_packages, bind. now rewrite H.
Qed.


(** X10: a failure of the listing call ends [list_packages] with the same
    exception and the same trace: no metadata or statistics is requested.
    In particular an exception of the listing service that is not a
    [Fault] (a transport error) comes out of [list_packages] unchanged,
    after one call, without sleep or retry. *)
Theorem listing_failure_propagates :
  (forall t t0 e,
      get_all_extensions env self t = (t0, Raise e) ->
      list_packages get_semver_version env self t = (t0, Raise e))
  /\ (forall t e,
         rpc_browse env t [CLASSIFIER] = Raise e ->
         (forall code msg, e <> Fault code msg) ->
         list_packages get_semver_version env self t
         = (t ++ [EvBrowse [CLASSIFIER]], Raise e)).
Proof.
  assert (H : forall t t0 e,
             get_all_extensions env self t = (t0, Raise e) ->
             list_packages get_semver_version env self t = (t0, Raise e)).
  { intros t t0 e He. unfold list_packages, bind. now rewrite He. }
  split; [exact H|].
  intros t e He Hnf. apply H. now apply get_all_extensions_not_fault.
Qed.

End Runs.

(** ** Counts that cannot be compared *)



Section Unsortable.
Variable A : Type.
Variable key : A -> pyval.





End Unsortable.

Section Counts.
Variable get_semver_version : string -> string.
Variable env : Env.
Variable self : PyPILabExtensions.


End Counts.

(** ** The reset hint *)












(** ** The calls and sleeps of the listing *)

Section Calls.
Variable get_semver_version : string -> string.
Variable env : Env.
Variable self : PyPILabExtensions.

(** One throttled call of the listing service, outcome by outcome. *)
Lemma throttle_call_browse (again : M (list (string * string))) c t :
  throttle_call self again (browse env c) t
  = match rpc_browse env t c with
    | Ok l => (t ++ [EvBrowse c], Ok l)
    | Raise (Fault code msg) =>
        if is_rate_limit code msg then
          if Qle_bool 0 (backoff self msg)
          then again (t ++ [EvBrowse c; EvSleep (backoff self msg)])
          else (t ++ [EvBrowse c], Raise ValueError)
        else (t ++ [EvBrowse c], Raise (UnboundLocalError "data"))
    | Raise e => (t ++ [EvBrowse c], Raise e)
    end.
Proof.
  unfold throttle_call, try_except, browse.
  destruct (rpc_browse env t c) as [l|e]; [reflexivity|].
  destruct e; try reflexivity.
  unfold is_rate_limit.
  destruct ((faultCode =? -32500)%Z && startswith faultString "HTTPTooManyRequests:");
    [|reflexivity].
  unfold bind, sleep. fold (backoff self faultString).
  destruct (Qle_bool 0 (backoff self faultString)); [|reflexivity].
  now rewrite <- app_assoc.
Qed.

(** X14: what [__get_all_extensions] does to the listing service is one
    call, or a call, a sleep and a call, or a call, a sleep, a call, a
    sleep and a call, and nothing else: two calls are always separated by
    a sleep, no sleep comes last, and each sleep follows a rate-limit
    fault, for a length computed from the message of that fault. *)
Theorem listing_calls_and_sleeps t :
  let call := EvBrowse [CLASSIFIER] in
  exists added,
    fst (get_all_extensions env self t) = t ++ added
    /\ (added = [call]
        \/ exists msg1,
            rpc_browse env t [CLASSIFIER] = Raise (Fault (-32500) msg1)
            /\ startswith msg1 "HTTPTooManyRequests:" = true
            /\ (added = [call; EvSleep (backoff self msg1); call]
                \/ exists msg2,
                    rpc_browse env (t ++ [call; EvSleep (backoff self msg1)])
                               [CLASSIFIER]
                    = Raise (Fault (-32500) msg2)
                    /\ startswith msg2 "HTTPTooManyRequests:" = true
                    /\ added = [call; EvSleep (backoff self msg1);
                                call; EvSleep (backoff self msg2); call])).
Proof.
  intro call.
  set (shape := fun added : list event =>
         added = [call]
         \/ exists msg1,
             rpc_browse env t [CLASSIFIER] = Raise (Fault (-32500) msg1)
             /\ startswith msg1 "HTTPTooManyRequests:" = true
             /\ (added = [call; EvSleep (backoff self msg1); call]
                 \/ exists msg2,
                     rpc_browse env (t ++ [call; EvSleep (backoff self msg1)])
                                [CLASSIFIER]
                     = Raise (Fault (-32500) msg2)
                     /\ startswith msg2 "HTTPTooManyRequests:" = true
                     /\ added = [call; EvSleep (backoff self msg1);
                                 call; EvSleep (backoff self msg2); call])).
  change (exists added,
             fst (get_all_extensions env self t) = t ++ added /\ shape added).
  assert (Hone : forall r : result (list (string * string)),
             exists added, fst (t ++ [call], r) = t ++ added /\ shape added).
  { intro r. exists [call]. split; [reflexivity | now left]. }
  unfold get_all_extensions, throttleRequest.
  rewrite throttle_call_browse. fold call.
  destruct (rpc_browse env t [CLASSIFIER]) as [l|e] eqn:H1; [apply Hone|].
  destruct e as [code1 msg1| | | | | | |]; try apply Hone.
  destruct (is_rate_limit code1 msg1) eqn:Hrl1; [|apply Hone].
  destruct (Qle_bool 0 (backoff self msg1)); [|apply Hone].
  unfold is_rate_limit in Hrl1. apply andb_true_iff in Hrl1 as [Hc1 Hp1].
  apply Z.eqb_eq in Hc1. subst code1.
  rewrite throttle_call_browse. fold call.
  set (t1 := t ++ [call; EvSleep (backoff self msg1)]).
  assert (Htwo : forall r : result (list (string * string)),
             exists added, fst (t1 ++ [call], r) = t ++ added /\ shape added).
  { intro r. exists [call; EvSleep (backoff self msg1); call]. split.
    - cbn [fst]. unfold t1. now rewrite <- app_assoc.
    - right. exists msg1. split; [reflexivity|]. split; [exact Hp1 | now left]. }
  destruct (rpc_browse env t1 [CLASSIFIER]) as [l|e] eqn:H2; [apply Htwo|].
  destruct e as [code2 msg2| | | | | | |]; try apply Htwo.
  destruct (is_rate_limit code2 msg2) eqn:Hrl2; [|apply Htwo].
  destruct (Qle_bool 0 (backoff self msg2)); [|apply Htwo].
  unfold is_rate_limit in Hrl2. apply andb_true_iff in Hrl2 as [Hc2 Hp2].
  apply Z.eqb_eq in Hc2. subst code2.
  exists [call; EvSleep (backoff self msg1); call; EvSleep (backoff self msg2); call].
  split.
  - unfold browse. cbn [fst]. unfold t1. now rewrite <- !app_assoc.
  - right. exists msg1. split; [reflexivity|]. split; [exact Hp1|].
    right. exists msg2. split; [exact H2|]. now split.
Qed.




End Calls.

(** ** More on the normalisation *)

Lemma normalize_spec_fixed (s : string) :
  occurs "@" s = false -> occurs "/" s = false -> occurs "_" s = false ->
  normalize_spec s = s.
Proof.
  induction s as [|c s IH]; cbn [occurs normalize_spec]; [reflexivity|].
  intros Hat Hsl Hun.
  apply orb_false_iff in Hat as [Hat Hat'].
  apply orb_false_iff in Hsl as [Hsl Hsl'].
  apply orb_false_iff in Hun as [Hun Hun'].
  unfold normalize_char. rewrite Hat, Hsl, Hun. cbn. now rewrite IH.
Qed.

Lemma normalize_spec_length (s : string) :
  String.length (normalize_spec s) <= String.length s.
Proof.
  induction s as [|c s IH]; cbn [normalize_spec]; [reflexivity|].
  unfold normalize_char.
  destruct (Ascii.eqb c "@"); [cbn; lia|].
  destruct (Ascii.eqb c "/" || Ascii.eqb c "_"); cbn; lia.
Qed.

(** X17: [_normalize_name] leaves a name unchanged exactly when the name
    has no [@], [/] or [_]; it works piece by piece, the normalised form of
    a concatenation being the concatenation of the normalised forms; and
    it never makes a name longer. *)
Theorem normalize_name_fixed_points :
  (forall x,
      normalize_name x = x
      <-> occurs "@" x = false /\ occurs "/" x = false /\ occurs "_" x = false)
  /\ (forall x y,
         normalize_name (x ++ y) = (normalize_name x ++ normalize_name y)%string)
  /\ (forall x, String.length (normalize_name x) <= String.length x).
Proof.
  split; [|split].
  - intro x. rewrite normalize_name_spec. split.
    + intro H. rewrite <- H. apply normalize_spec_clean.
    + intros (Hat & Hsl & Hun). now apply normalize_spec_fixed.
  - intros x y. rewrite !normalize_name_spec. apply normalize_spec_app.
  - intro x. rewrite normalize_name_spec. apply normalize_spec_length.
Qed.

(** * Further concrete runs *)

Lemma metadata_keeps_the_nine_keys_witness :
  exists data,
    snd (fetch_package_metadata env_all_urls "pkg" "1.0"
           (base_url default_config) [])
    = Ok data
    /\ map fst data = METADATA_KEYS
    /\ dict_get data "classifiers" = PNone.
Proof.
  destruct (@metadata_keeps_the_nine_keys env_all_urls "pkg" "1.0"
              (base_url default_config) [] _ _ eq_refl)
    as (Hkeys & top & info & _ & _ & _ & Hout).
  eexists. split; [reflexivity|]. split; [exact Hkeys|].
  apply Hout. intro H. repeat (destruct H as [H|H]; [discriminate|]). exact H.
Defined.


Lemma monthly_download_reads_last_month_witness :
  get_monthly_download env_three "a" []
  = ([EvFetch (PYPISTATS_ENDPOINT "a")], Ok (PInt 30)).
Proof.
  exact (@monthly_download_reads_last_month env_three "a" []
           [("data", PDict [("last_month", PInt 30)])]
           [("last_month", PInt 30)] (PInt 30) eq_refl eq_refl eq_refl).
Defined.

Lemma project_urls_must_be_a_map_witness :
  loop_body plain_version env_urls_not_a_map default_config "pkg" [("pkg", "1.0")]
            [] [EvBrowse [CLASSIFIER]]
  = ([EvBrowse [CLASSIFIER]; EvFetch "https://pypi.org/pypi/pkg/1.0/json"],
     Raise AttributeError).
Proof.
  eapply (proj2 (proj2 (project_urls_must_be_a_map plain_version env_urls_not_a_map
                          default_config))).
  - reflexivity.
  - reflexivity.
  - reflexivity.
  - intros urls H. discriminate H.
Defined.

Lemma record_of_a_turn_witness :
  exists r,
    snd (loop_body plain_version env_all_urls default_config "pkg" [("pkg", "1.0")]
           [] [EvBrowse [CLASSIFIER]])
    = Ok [("pkg", r)]
    /\ dict_get r "documentation_url" = PStr "D"
    /\ dict_get r "bug_tracker_url" = PStr "PB"
    /\ dict_get r "repository_url" = PStr "S"
    /\ dict_get r "monthly_download" = PInt 42.
Proof.
  destruct (@record_of_a_turn plain_version env_all_urls default_config
              "pkg" [("pkg", "1.0")] [] [EvBrowse [CLASSIFIER]] "pkg" "1.0" _ _
              [("Documentation", PStr "PD"); ("Bug Tracker", PStr "PB");
               ("Source Code", PStr "S")]
              eq_refl eq_refl eq_refl)
    as (t' & count & r & Hcount & Hbody & _ & _ & _ & _ & _ & _
        & Hbug & Hdoc & _ & Hrepo & Hmonthly).
  injection Hcount as _ <-.
  exists r. split; [now rewrite Hbody|].
  split; [exact Hdoc|]. split; [exact Hbug|]. split; [exact Hrepo | exact Hmonthly].
Defined.

Lemma catalog_records_have_twelve_keys_witness :
  exists r,
    map fst r = RECORD_KEYS
    /\ (exists name, dict_get r "name" = PStr name)
    /\ (exists version, dict_get r "latest_version" = PStr version)
    /\ dict_get r "pkg_type" = PStr "prebuilt"
    /\ exists count,
        lookup r "monthly_download" = Some count
        /\ monthly_download_key r = count.
Proof.
  eexists.
  eapply (@catalog_records_have_twelve_keys plain_version env_three default_config []).
  - reflexivity.
  - left. reflexivity.
Defined.

Lemma requests_of_a_run_witness :
  exists t0 matches,
    get_all_extensions env_interleaved default_config [] = (t0, Ok matches)
    /\ [EvBrowse [CLASSIFIER];
        EvFetch "https://pypi.org/pypi/b_x/1.0/json";
        EvFetch "https://pypistats.org/api/packages/b_x/recent?period=month";
        EvFetch "https://pypi.org/pypi/a/1.0/json";
        EvFetch "https://pypistats.org/api/packages/a/recent?period=month";
        EvFetch "https://pypi.org/pypi/b-x/2.0/json";
        EvFetch "https://pypistats.org/api/packages/b-x/recent?period=month"]
       = t0 ++ flat_map (group_requests (base_url default_config)) (groupby matches)
    /\ length (flat_map (group_requests (base_url default_config)) (groupby matches))
       = 2 * length (groupby matches).
Proof.
  exact (proj1 (requests_of_a_run plain_version env_interleaved default_config)
               [] _ _ eq_refl).
Defined.


Lemma listing_failure_propagates_witness :
  list_packages plain_version env_unreachable default_config []
  = ([EvBrowse [CLASSIFIER]], Raise (OtherError "ConnectionRefusedError")).
Proof.
  apply (proj2 (listing_failure_propagates plain_version env_unreachable
                  default_config) []).
  - reflexivity.
  - intros code msg H. discriminate H.
Defined.





